(** * circuit-executor: task orchestration layer

    A shallow embedding of the API service ([src/api/main.py]), the worker
    ([src/worker/main.py]), the two clients ([src/common/redis_client.py],
    [src/common/nats_client.py]), the task model ([src/common/models.py]) and
    the payload helpers ([src/common/utils/circuit_utils.py]).

    Python coroutines are embedded in a reader/state/exception monad [Py]:
    the reader part [Env] holds the behaviour of the collaborators the code
    cannot control (Redis and NATS failures, the QASM parser, the simulator,
    uuid4), the state part [World] holds what the code mutates (the Redis
    key space, the NATS connection flag, the published messages, the
    active-task set) and a computation ends in [Ret] or in [Raise].
    Logging has no effect on any of these and is left out. *)

From Stdlib Require Import ZArith DecimalString.
From stdpp Require Import base option list strings gmap.

Local Open Scope Z_scope.

(** ** Data model ([common/models.py]) *)

Inductive TaskStatus := PENDING | PROCESSING | COMPLETED | FAILED.

Definition TaskStatus_value (s : TaskStatus) : string :=
  match s with
  | PENDING => "pending"
  | PROCESSING => "processing"
  | COMPLETED => "completed"
  | FAILED => "failed"
  end.

#[global] Instance TaskStatus_eq_dec : EqDecision TaskStatus.
Proof. solve_decision. Defined.

(** Measurement counts: outcome label to number of occurrences. *)
Definition Counts := list (string * Z).

(** The dictionary [Task.model_dump()] produces and the worker updates in
    place; it always has these eight keys.  Timestamps are instants of an
    abstract clock (their ISO-8601 text on the wire is not modelled). *)
Record TaskData := mkTask {
  id : string;
  circuit_qasm : string;
  shots : Z;
  status : TaskStatus;
  result : option Counts;
  error : option string;
  created_at : Z;
  completed_at : option Z
}.

Definition set_status (s : TaskStatus) (t : TaskData) : TaskData :=
  mkTask (id t) (circuit_qasm t) (shots t) s (result t) (error t)
         (created_at t) (completed_at t).
Definition set_result (r : Counts) (t : TaskData) : TaskData :=
  mkTask (id t) (circuit_qasm t) (shots t) (status t) (Some r) (error t)
         (created_at t) (completed_at t).
Definition set_error (e : string) (t : TaskData) : TaskData :=
  mkTask (id t) (circuit_qasm t) (shots t) (status t) (result t) (Some e)
         (created_at t) (completed_at t).
Definition set_completed_at (c : Z) (t : TaskData) : TaskData :=
  mkTask (id t) (circuit_qasm t) (shots t) (status t) (result t) (error t)
         (created_at t) (Some c).

(** [len(task_data)]: a dump of [Task] is never the empty dict. *)
Definition dict_len (_ : TaskData) : nat := 8.

(** Python's [not x] on [Optional[Dict]]: [None] and the empty dict are falsy. *)
Definition py_not (o : option TaskData) : bool :=
  match o with
  | None => true
  | Some d => Nat.eqb (dict_len d) 0
  end.

(** [TaskRequest]: [shots: int = Field(default=1024, gt=0)]. *)
Record TaskRequest := { tr_quantum_circuit : string; tr_shots : Z }.

(** [QuantumCircuitRequest] of [api/main.py]: [shots: int], unconstrained. *)
Record QuantumCircuitRequest := { quantum_circuit : string; req_shots : Z }.

(** Field validation of the two request models on a body
    [{quantum_circuit, shots}] ([None]: the key is missing). *)
Definition TaskRequest_validate (qc : string) (shots : option Z) : option TaskRequest :=
  match shots with
  | None => Some {| tr_quantum_circuit := qc; tr_shots := 1024 |}
  | Some s =>
      if 0 <? s then Some {| tr_quantum_circuit := qc; tr_shots := s |} else None
  end.

Definition QuantumCircuitRequest_validate (qc : string) (shots : option Z)
    : option QuantumCircuitRequest :=
  match shots with
  | None => None
  | Some s => Some {| quantum_circuit := qc; req_shots := s |}
  end.

Record TaskResponse := { task_id : string; resp_status : string }.

(** A decoded JSON value, for bus and circuit payloads. *)
Unset Elimination Schemes.
Inductive json :=
| JNull
| JBool (b : bool)
| JInt (z : Z)
| JStr (s : string)
| JList (l : list json)
| JObj (fields : list (string * json)).
Set Elimination Schemes.

Inductive QuantumCircuit := Circuit (num_qubits num_clbits : Z) (program : string).

Definition num_qubits (c : QuantumCircuit) : Z := let 'Circuit q _ _ := c in q.
Definition num_clbits (c : QuantumCircuit) : Z := let 'Circuit _ k _ := c in k.

(** ** Exceptions and the [Py] monad *)

Inductive exn :=
| Exception (msg : string)
| TimeoutError
| HTTPException (status_code : Z) (detail : string).

Definition str_of_int (z : Z) : string := NilZero.string_of_int (Z.to_int z).

(** [str(e)]; Starlette prints an [HTTPException] as ["<code>: <detail>"]. *)
Definition str (e : exn) : string :=
  match e with
  | Exception msg => msg
  | TimeoutError => EmptyString
  | HTTPException c d => str_of_int c +:+ ": " +:+ d
  end.

Inductive Res (A : Type) :=
| Ret (a : A)
| Raise (e : exn).
Arguments Ret {A} a.
Arguments Raise {A} e.

(** What the environment decides.  The n-th Redis command raises
    [redis_fault n] when that is [Some]; likewise for NATS network calls and
    for the n-th run of the simulator. *)
Record Env := {
  redis_fault : nat -> option string;
  nats_fault : nat -> option string;
  qasm3_dumps : QuantumCircuit -> Res string;
  qasm3_loads : string -> Res QuantumCircuit;
  simulator_run : nat -> QuantumCircuit -> Z -> Res Counts;
  json_dumps : json -> string;
  json_loads : string -> Res json;
  uuid4 : nat -> string
}.

(** What the outside saw, in order: a document stored under a key, a
    network call made on the NATS connection. *)
Inductive Effect :=
| Stored (key : string) (doc : TaskData)
| BusCall.

Record World := mkWorld {
  redis_db : gmap string TaskData;          (* key -> stored JSON document *)
  redis_handle : bool;                      (* self.redis is not None *)
  redis_calls : nat;
  history : list Effect;                    (* ghost: the effects so far, oldest first *)
  nc_connected : bool;                      (* nc is not None and nc.is_connected *)
  nats_calls : nat;
  published : list (string * string);       (* (subject, data) handed to the bus *)
  active_tasks : gset string;
  engine_calls : nat;
  uuid_calls : nat;
  clock : Z                                 (* milliseconds *)
}.

Definition with_redis_db (f : gmap string TaskData -> gmap string TaskData) (w : World) :=
  mkWorld (f (redis_db w)) (redis_handle w) (redis_calls w) (history w)
          (nc_connected w) (nats_calls w) (published w) (active_tasks w)
          (engine_calls w) (uuid_calls w) (clock w).
Definition with_redis_handle (b : bool) (w : World) :=
  mkWorld (redis_db w) b (redis_calls w) (history w)
          (nc_connected w) (nats_calls w) (published w) (active_tasks w)
          (engine_calls w) (uuid_calls w) (clock w).
Definition with_redis_calls (n : nat) (w : World) :=
  mkWorld (redis_db w) (redis_handle w) n (history w)
          (nc_connected w) (nats_calls w) (published w) (active_tasks w)
          (engine_calls w) (uuid_calls w) (clock w).
Definition with_history (l : list Effect) (w : World) :=
  mkWorld (redis_db w) (redis_handle w) (redis_calls w) l
          (nc_connected w) (nats_calls w) (published w) (active_tasks w)
          (engine_calls w) (uuid_calls w) (clock w).
Definition with_nc_connected (b : bool) (w : World) :=
  mkWorld (redis_db w) (redis_handle w) (redis_calls w) (history w)
          b (nats_calls w) (published w) (active_tasks w)
          (engine_calls w) (uuid_calls w) (clock w).
Definition with_nats_calls (n : nat) (w : World) :=
  mkWorld (redis_db w) (redis_handle w) (redis_calls w) (history w)
          (nc_connected w) n (published w) (active_tasks w)
          (engine_calls w) (uuid_calls w) (clock w).
Definition with_published (l : list (string * string)) (w : World) :=
  mkWorld (redis_db w) (redis_handle w) (redis_calls w) (history w)
          (nc_connected w) (nats_calls w) l (active_tasks w)
          (engine_calls w) (uuid_calls w) (clock w).
Definition with_active_tasks (s : gset string) (w : World) :=
  mkWorld (redis_db w) (redis_handle w) (redis_calls w) (history w)
          (nc_connected w) (nats_calls w) (published w) s
          (engine_calls w) (uuid_calls w) (clock w).
Definition with_engine_calls (n : nat) (w : World) :=
  mkWorld (redis_db w) (redis_handle w) (redis_calls w) (history w)
          (nc_connected w) (nats_calls w) (published w) (active_tasks w)
          n (uuid_calls w) (clock w).
Definition with_uuid_calls (n : nat) (w : World) :=
  mkWorld (redis_db w) (redis_handle w) (redis_calls w) (history w)
          (nc_connected w) (nats_calls w) (published w) (active_tasks w)
          (engine_calls w) n (clock w).
Definition with_clock (t : Z) (w : World) :=
  mkWorld (redis_db w) (redis_handle w) (redis_calls w) (history w)
          (nc_connected w) (nats_calls w) (published w) (active_tasks w)
          (engine_calls w) (uuid_calls w) t.

(** The documents written so far, oldest first. *)
Definition stored_doc (e : Effect) : option (string * TaskData) :=
  match e with
  | Stored k d => Some (k, d)
  | BusCall => None
  end.

Definition writes (w : World) : list (string * TaskData) :=
  omap stored_doc (history w).

Definition Py (A : Type) : Type := Env -> World -> Res A * World.

Definition ret {A} (a : A) : Py A := fun _ w => (Ret a, w).
Definition raise {A} (e : exn) : Py A := fun _ w => (Raise e, w).
Definition bind {A B} (m : Py A) (k : A -> Py B) : Py B :=
  fun env w =>
    match m env w with
    | (Ret a, w') => k a env w'
    | (Raise e, w') => (Raise e, w')
    end.

Notation "x <- m ;; k" := (bind m (fun x => k))
  (at level 90, m at level 60, right associativity).
Notation "m ;;; k" := (bind m (fun _ => k))
  (at level 90, right associativity).

(** [try: m except Exception as e: h e] *)
Definition try_except {A} (m : Py A) (h : exn -> Py A) : Py A :=
  fun env w =>
    match m env w with
    | (Ret a, w') => (Ret a, w')
    | (Raise e, w') => h e env w'
    end.

(** [try: m finally: fin] *)
Definition try_finally {A} (m : Py A) (fin : Py unit) : Py A :=
  fun env w =>
    match m env w with
    | (r, w') =>
        match fin env w' with
        | (Ret _, w'') => (r, w'')
        | (Raise e, w'') => (Raise e, w'')
        end
    end.

Definition ask : Py Env := fun env w => (Ret env, w).
Definition get_world : Py World := fun _ w => (Ret w, w).
Definition modify (f : World -> World) : Py unit := fun _ w => (Ret tt, f w).
Definition lift_res {A} (r : Res A) : Py A := fun _ w => (r, w).

(** [datetime.utcnow()] / [datetime.now(timezone.utc)] *)
Definition utcnow : Py Z := fun _ w => (Ret (clock w), w).

(** [str(uuid.uuid4())] *)
Definition uuid4_str : Py string :=
  fun env w => (Ret (uuid4 env (uuid_calls w)), with_uuid_calls (S (uuid_calls w)) w).

(** Virtual time.  An awaitable that only passes time is the number of
    milliseconds it takes and the way it ends. *)
Module Asyncio.

Definition Awaitable (A : Type) : Type := (Z * Res A)%type.

(** [asyncio.sleep(seconds)], the delay given in milliseconds *)
Definition sleep (ms : Z) : Awaitable unit := (ms, Ret tt).

(** [asyncio.gather] of awaitables: they run concurrently; it ends when
    the last one does, with the first exception if there is one. *)
Definition gather (aws : list (Awaitable unit)) : Awaitable unit :=
  (foldr Z.max 0 (map fst aws),
   foldr (fun aw r => match snd aw with Raise e => Raise e | Ret _ => r end)
         (Ret tt) aws).

(** [asyncio.wait_for(aw, timeout)] *)
Definition wait_for {A} (aw : Awaitable A) (timeout : Z) : Awaitable A :=
  if fst aw <=? timeout then aw
  else (timeout, Raise TimeoutError).

(** [await aw] *)
Definition await {A} (aw : Awaitable A) : Py A :=
  fun _ w => (snd aw, with_clock (clock w + fst aw) w).

End Asyncio.

(** ** Redis client ([common/redis_client.py]) *)

Module RedisClient.

(** [redis.from_url] only builds the client object. *)
Definition connect : Py unit :=
  w <- get_world ;;
  if redis_handle w then ret tt
  else try_except (modify (with_redis_handle true)) (fun e => raise e).

(** One command sent to the server: it is counted, and either raises what
    the environment decided or takes effect. *)
Definition command {A} (effect : World -> A * World) : Py A :=
  fun env w =>
    let w1 := with_redis_calls (S (redis_calls w)) w in
    match redis_fault env (redis_calls w) with
    | Some msg => (Raise (Exception msg), w1)
    | None => let (a, w2) := effect w1 in (Ret a, w2)
    end.

Definition key_of (task_id : string) : string := "task:" +:+ task_id.

(** [self.redis.set(key, json_data)] *)
Definition SET (key : string) (doc : TaskData) (w : World) : unit * World :=
  (tt, with_history (history w ++ [Stored key doc])
         (with_redis_db (insert key doc) w)).

(** [self.redis.get(key)] *)
Definition GET (key : string) (w : World) : option TaskData * World :=
  (redis_db w !! key, w).

(** [self.redis.close()] *)
Definition CLOSE (w : World) : unit * World := (tt, w).

Definition ensure_connected : Py unit :=
  w <- get_world ;;
  if redis_handle w then ret tt else connect.

(** The [except] clauses of both methods log and re-raise. *)
Definition set_task (task_id : string) (task_data : TaskData) : Py unit :=
  ensure_connected ;;;
  let key := key_of task_id in
  try_except (command (SET key task_data)) (fun e => raise e).

Definition get_task (task_id : string) : Py (option TaskData) :=
  ensure_connected ;;;
  let key := key_of task_id in
  try_except
    (data <- command (GET key) ;;
     match data with
     | None => ret None
     | Some doc => ret (Some doc)
     end)
    (fun e => raise e).

Definition disconnect : Py unit :=
  w <- get_world ;;
  if redis_handle w
  then try_except
         (command CLOSE ;;; modify (with_redis_handle false))
         (fun _ => modify (with_redis_handle false))
  else ret tt.

(** [self.redis.ping()] *)
Definition PING (w : World) : bool * World := (true, w).

(** The first [except:] returns [False] from [ping]; so does the second. *)
Definition ping : Py bool :=
  w <- get_world ;;
  go_on <- (if redis_handle w then ret true
            else try_except (connect ;;; ret true) (fun _ => ret false)) ;;
  if go_on
  then try_except (command PING) (fun _ => ret false)
  else ret false.

End RedisClient.

(** ** NATS client ([common/nats_client.py]) *)

Module NATSClient.

Definition is_connected : Py bool := fun _ w => (Ret (nc_connected w), w).

(** A network call on the connection ([nats.connect], [nc.publish],
    [nc.close]). *)
Definition network {A} (effect : World -> A * World) : Py A :=
  fun env w =>
    let w1 := with_history (history w ++ [BusCall])
                (with_nats_calls (S (nats_calls w)) w) in
    match nats_fault env (nats_calls w) with
    | Some msg => (Raise (Exception msg), w1)
    | None => let (a, w2) := effect w1 in (Ret a, w2)
    end.

Definition set_connected (b : bool) (w : World) : unit * World :=
  (tt, with_nc_connected b w).

(** [self.nc.publish(subject, message)] *)
Definition send (subject : string) (message : string) (w : World) : unit * World :=
  (tt, with_published (published w ++ [(subject, message)]) w).

Definition connect : Py unit :=
  c <- is_connected ;;
  if c then ret tt
  else try_except (network (set_connected true)) (fun _ => ret tt).

Definition disconnect : Py unit :=
  c <- is_connected ;;
  if c then network (set_connected false) else ret tt.

(** The first [except] clause returns from [publish]; the second one
    only logs. *)
Definition publish (subject : string) (payload : json) : Py unit :=
  c <- is_connected ;;
  go_on <- (if negb c
            then try_except (connect ;;; ret true) (fun _ => ret false)
            else ret true) ;;
  if go_on
  then try_except
         (c' <- is_connected ;;
          if c'
          then env <- ask ;;
               let message := json_dumps env payload in
               network (send subject message)
          else ret tt)
         (fun _ => ret tt)
  else ret tt.

(** [self.nc.subscribe(subject, cb=callback)]: what the server does with
    the subscription is outside the modelled state. *)
Definition SUB (subject : string) (w : World) : unit * World := (tt, w).

Definition subscribe (subject : string) : Py unit :=
  c <- is_connected ;;
  go_on <- (if negb c
            then connect ;;; c' <- is_connected ;; ret c'
            else ret true) ;;
  if go_on
  then try_except (network (SUB subject)) (fun _ => ret tt)
  else ret tt.

End NATSClient.

(** ** API service ([api/main.py]) *)

Module Api.

(** [task.model_dump()], then the round trip through
    [json.dumps(.., cls=CustomJSONEncoder)] and [json.loads]: the same
    eight fields, the status as its string value. *)
Definition model_dump (t : TaskData) : TaskData := t.

Definition submit_task (request : QuantumCircuitRequest) : Py TaskResponse :=
  task_id <- uuid4_str ;;
  try_except
    (now <- utcnow ;;
     let task :=
       mkTask task_id (quantum_circuit request) (req_shots request) PENDING
              None None now None in
     try_except
       (let task_data := model_dump task in
        RedisClient.set_task task_id task_data)
       (fun e => raise (HTTPException 500 ("Redis error: " +:+ str e))) ;;;
     try_except
       (c <- NATSClient.is_connected ;;
        if c
        then NATSClient.publish "tasks" (JObj [("task_id", JStr task_id)])
        else ret tt)
       (fun _ => ret tt) ;;;
     ret {| task_id := task_id; resp_status := "pending" |})
    (fun e => raise (HTTPException 500 ("Error creating task: " +:+ str e))).

Definition get_task (task_id : string) : Py (option TaskData) :=
  try_except
    (task_data <- RedisClient.get_task task_id ;;
     if py_not task_data
     then raise (HTTPException 404 "Task not found")
     else ret task_data)
    (fun e =>
       match e with
       | HTTPException _ _ => raise e
       | _ => raise (HTTPException 500 "Failed to retrieve task")
       end).

(** The response of [/health]. *)
Record Health := {
  health_status : string;
  health_nats : bool;
  health_redis : bool
}.

Definition health_check : Py Health :=
  is_nats_connected <- NATSClient.is_connected ;;
  is_redis_connected <- try_except RedisClient.ping (fun _ => ret false) ;;
  ret {| health_status := "healthy";
         health_nats := is_nats_connected;
         health_redis := is_redis_connected |}.

(** [lifespan], the part before [yield] *)
Definition lifespan_startup : Py unit :=
  try_except NATSClient.connect (fun _ => ret tt) ;;;
  try_except RedisClient.connect (fun _ => ret tt).

(** [lifespan], the part after [yield] *)
Definition lifespan_shutdown : Py unit :=
  try_except NATSClient.disconnect (fun _ => ret tt) ;;;
  try_except RedisClient.disconnect (fun _ => ret tt).

End Api.

(** ** Circuit helpers ([common/utils/circuit_utils.py]) *)

Module CircuitUtils.

(** Both conversions log a [QiskitError] and re-raise it. *)
Definition circuit_to_qasm (circuit : QuantumCircuit) : Py string :=
  env <- ask ;;
  try_except (lift_res (qasm3_dumps env circuit)) (fun e => raise e).

Definition qasm_to_circuit (qasm_str : string) : Py QuantumCircuit :=
  env <- ask ;;
  try_except (lift_res (qasm3_loads env qasm_str)) (fun e => raise e).

(** [execute_circuit]: one run of the simulator in the thread pool. *)
Definition execute_circuit (circuit : QuantumCircuit) (shots : Z) : Py Counts :=
  fun env w =>
    (simulator_run env (engine_calls w) circuit shots,
     with_engine_calls (S (engine_calls w)) w).

Fixpoint dict_lookup (key : string) (fields : list (string * json)) : option json :=
  match fields with
  | [] => None
  | (k, v) :: rest => if String.eqb k key then Some v else dict_lookup key rest
  end.

(** [payload[key]] *)
Definition subscript (payload : json) (key : string) : Py json :=
  match payload with
  | JObj fields =>
      match dict_lookup key fields with
      | Some v => ret v
      | None => raise (Exception ("KeyError: " +:+ key))
      end
  | _ => raise (Exception "TypeError: payload is not subscriptable by str")
  end.

(** [payload.get(key, default)], reached only when [payload[..]] succeeded. *)
Definition get (payload : json) (key : string) (default : json) : json :=
  match payload with
  | JObj fields =>
      match dict_lookup key fields with
      | Some v => v
      | None => default
      end
  | _ => default
  end.

Record Payload := { circuit : QuantumCircuit; pl_shots : json; metadata : json }.

Definition deserialise_circuit_payload (payload_str : string) : Py Payload :=
  try_except
    (env <- ask ;;
     payload <- lift_res (json_loads env payload_str) ;;
     qasm <- subscript payload "qasm" ;;
     circuit <- match qasm with
                | JStr q => qasm_to_circuit q
                | _ => raise (Exception "TypeError: qasm is not a str")
                end ;;
     ret {| circuit := circuit;
            pl_shots := get payload "shots" (JInt 1024);
            metadata := get payload "metadata" (JObj []) |})
    (fun e => raise e).

(** [shots or 1024] on [Optional[int]] *)
Definition shots_or (shots : option Z) (default : Z) : Z :=
  match shots with
  | None => default
  | Some s => if s =? 0 then default else s
  end.

(** The dict literal [serialise_circuit_payload] builds. *)
Definition payload_dict (qasm : string) (shots : option Z)
    (circuit : QuantumCircuit) : json :=
  JObj [("qasm", JStr qasm);
        ("shots", JInt (shots_or shots 1024));
        ("metadata",
         JObj [("num_qubits", JInt (num_qubits circuit));
               ("num_clbits", JInt (num_clbits circuit))])].

(** The [except] clause names [json.JSONEncodeError], which the [json]
    module does not have: when the body raises, evaluating the clause
    raises [AttributeError] in its place. *)
Definition serialise_circuit_payload (circuit : QuantumCircuit)
    (shots : option Z) : Py string :=
  try_except
    (qasm <- circuit_to_qasm circuit ;;
     let payload := payload_dict qasm shots circuit in
     env <- ask ;;
     ret (json_dumps env payload))
    (fun _ =>
       raise (Exception "AttributeError: module 'json' has no attribute 'JSONEncodeError'")).

End CircuitUtils.

(** ** Worker ([worker/main.py]) *)

Module Worker.

(** *** Task processor *)

Definition handle_task_error (task_id : string) (error_message : string) : Py unit :=
  try_except
    (task_data <- RedisClient.get_task task_id ;;
     match task_data with
     | Some d =>
         if py_not task_data then ret tt
         else
           let d := set_status FAILED d in
           let d := set_error error_message d in
           now <- utcnow ;;
           let d := set_completed_at now d in
           RedisClient.set_task task_id d
     | None => ret tt
     end)
    (fun _ => ret tt).

Definition process_task (task_id : string) : Py unit :=
  modify (fun w => with_active_tasks (active_tasks w ∪ {[task_id]}) w) ;;;
  try_finally
    (try_except
       (task_data <- RedisClient.get_task task_id ;;
        match task_data with
        | Some d =>
            if py_not task_data then ret tt
            else
              let d := set_status PROCESSING d in
              RedisClient.set_task task_id d ;;;
              circuit <- CircuitUtils.qasm_to_circuit (circuit_qasm d) ;;
              let shots := shots d in
              start_time <- utcnow ;;
              counts <- CircuitUtils.execute_circuit circuit shots ;;
              end_time <- utcnow ;;
              let d := set_result counts d in
              let d := set_status COMPLETED d in
              now <- utcnow ;;
              let d := set_completed_at now d in
              RedisClient.set_task task_id d
        | None => ret tt
        end)
       (fun e => handle_task_error task_id (str e)))
    (modify (fun w => with_active_tasks (active_tasks w ∖ {[task_id]}) w)).

(** *** Dispatch: the semaphore and the message handler

    The event loop's view: the value of [sem], the handlers suspended in
    [sem.acquire()] (oldest first, each with the [task_id] it carries) and
    the [process_task] coroutines created and not yet done. *)

Record Loop := mkLoop {
  sem_value : nat;
  sem_waiters : list json;
  spawned : list json
}.

(** [sem = asyncio.Semaphore(max_concurrent_tasks)]; [active] coroutines: none. *)
Definition start (max_concurrent_tasks : nat) : Loop :=
  mkLoop max_concurrent_tasks [] [].

(** [asyncio.create_task(process_task(task_id))] with its done-callback *)
Definition create_task (task_id : json) (l : Loop) : Loop :=
  mkLoop (sem_value l) (sem_waiters l) (spawned l ++ [task_id]).

(** [Semaphore.locked()] *)
Definition locked (l : Loop) : bool :=
  Nat.eqb (sem_value l) 0 || negb (Nat.eqb (length (sem_waiters l)) 0).

(** [await sem.acquire()] followed by the rest of the handler: taken at
    once when the semaphore is not locked, otherwise the handler queues. *)
Definition acquire_then_spawn (task_id : json) (l : Loop) : Loop :=
  if locked l
  then mkLoop (sem_value l) (sem_waiters l ++ [task_id]) (spawned l)
  else create_task task_id (mkLoop (pred (sem_value l)) (sem_waiters l) (spawned l)).

(** [sem.release()]: the value goes up by one and the oldest waiter, if
    any, takes it back and resumes after its [acquire]. *)
Definition release (l : Loop) : Loop :=
  let l1 := mkLoop (S (sem_value l)) (sem_waiters l) (spawned l) in
  match sem_waiters l1 with
  | [] => l1
  | task_id :: rest =>
      create_task task_id (mkLoop (pred (sem_value l1)) rest (spawned l1))
  end.

(** Python truth value of a decoded JSON value *)
Definition truthy (j : json) : bool :=
  match j with
  | JNull => false
  | JBool b => b
  | JInt z => negb (z =? 0)
  | JStr s => negb (String.eqb s EmptyString)
  | JList l => negb (Nat.eqb (length l) 0)
  | JObj fields => negb (Nat.eqb (length fields) 0)
  end.

(** [payload = json.loads(msg.data.decode()); task_id = payload.get("task_id")] *)
Definition read_task_id (env : Env) (data : string) : Res json :=
  match json_loads env data with
  | Raise e => Raise e
  | Ret (JObj fields) =>
      match CircuitUtils.dict_lookup "task_id" fields with
      | Some v => Ret v
      | None => Ret JNull
      end
  | Ret _ => Raise (Exception "AttributeError: object has no attribute 'get'")
  end.

Definition handle_task_message (env : Env) (data : string) (l : Loop) : Loop :=
  match read_task_id env data with
  | Ret task_id =>
      if negb (truthy task_id) then l
      else acquire_then_spawn task_id l
  | Raise _ => release l
  end.

(** The done-callback of the [i]-th coroutine in flight: it leaves the
    loop and [sem.release()] runs. *)
Definition task_done (i : nat) (l : Loop) : option Loop :=
  match spawned l !! i with
  | Some _ =>
      Some (release (mkLoop (sem_value l) (sem_waiters l) (delete i (spawned l))))
  | None => None
  end.

Inductive Event :=
| Deliver (data : string)
| Done (i : nat).

Definition step (env : Env) (l : Loop) (ev : Event) : option Loop :=
  match ev with
  | Deliver data => Some (handle_task_message env data l)
  | Done i => task_done i l
  end.

Fixpoint run (env : Env) (l : Loop) (evs : list Event) : option Loop :=
  match evs with
  | [] => Some l
  | ev :: rest =>
      match step env l ev with
      | Some l' => run env l' rest
      | None => None
      end
  end.

(** *** Shutdown *)

Definition shutdown_timeout : Z := 10000.

(** [loop.stop()] has no effect on the modelled state. *)
Definition shutdown : Py unit :=
  w <- get_world ;;
  (if bool_decide (active_tasks w = ∅) then ret tt
   else
     try_except
       (Asyncio.await
          (Asyncio.wait_for
             (Asyncio.gather
                (map (fun _ => Asyncio.sleep 100)
                     (seq 0 (size (active_tasks w)))))
             shutdown_timeout))
       (fun e => match e with TimeoutError => ret tt | _ => raise e end)) ;;;
  try_except NATSClient.disconnect (fun _ => ret tt) ;;;
  try_except RedisClient.disconnect (fun _ => ret tt) ;;;
  ret tt.

(** *** Start-up and the connection supervisor *)

Definition connect_to_services : Py unit :=
  try_except NATSClient.connect (fun _ => ret tt) ;;;
  try_except RedisClient.connect (fun _ => ret tt).

Definition subscribe_to_tasks : Py unit :=
  c <- NATSClient.is_connected ;;
  (if negb c then NATSClient.connect else ret tt) ;;;
  NATSClient.subscribe "tasks".

(** One turn of the [while True] loop of [maintain_service_connections]. *)
Definition maintain_turn : Py unit :=
  c <- NATSClient.is_connected ;;
  (if negb c
   then try_except
          (NATSClient.connect ;;;
           c' <- NATSClient.is_connected ;;
           if c' then subscribe_to_tasks else ret tt)
          (fun _ => ret tt)
   else ret tt) ;;;
  Asyncio.await (Asyncio.sleep 5000).

(** The loop never ends by itself; [turns] is how long it is observed. *)
Fixpoint maintain_service_connections (turns : nat) : Py unit :=
  match turns with
  | O => ret tt
  | S n => maintain_turn ;;; maintain_service_connections n
  end.

(** [main], observed for [turns] turns of the supervisor.  Registering the
    signal handlers has no effect on the modelled state. *)
Definition main (turns : nat) : Py unit :=
  connect_to_services ;;;
  c <- NATSClient.is_connected ;;
  (if c then subscribe_to_tasks else ret tt) ;;;
  maintain_service_connections turns.

End Worker.

(** ** Notions used in the statements *)

(** The task [submit_task] builds when it runs in world [w]: PENDING, no
    result, no error. *)
Definition submitted (env : Env) (w : World) (request : QuantumCircuitRequest)
    : TaskData :=
  mkTask (uuid4 env (uuid_calls w)) (quantum_circuit request)
         (req_shots request) PENDING None None (clock w) None.

Definition submitted_key (env : Env) (w : World) : string :=
  RedisClient.key_of (uuid4 env (uuid_calls w)).

(** [COMPLETED] and [FAILED] are the terminal states. *)
Definition terminal (s : TaskStatus) : bool :=
  match s with
  | COMPLETED | FAILED => true
  | PENDING | PROCESSING => false
  end.

(** [result] is there exactly in COMPLETED, [error] exactly in FAILED. *)
Definition consistent (t : TaskData) : Prop :=
  (is_Some (result t) <-> status t = COMPLETED)
  /\ (is_Some (error t) <-> status t = FAILED).

(** A record no processor run has finished on: not terminal, no result, no
    error. *)
Definition untouched (t : TaskData) : bool :=
  negb (terminal (status t))
  && bool_decide (result t = None) && bool_decide (error t = None).

(** The three updates [process_task] and [handle_task_error] make. *)
Definition mark_processing (t : TaskData) : TaskData :=
  set_status PROCESSING t.
Definition mark_completed (counts : Counts) (now : Z) (t : TaskData) : TaskData :=
  set_completed_at now (set_status COMPLETED (set_result counts t)).
Definition mark_failed (msg : string) (now : Z) (t : TaskData) : TaskData :=
  set_completed_at now (set_error msg (set_status FAILED t)).

(** The documents one run of [process_task] can store for a task whose
    stored document is [t], in order. *)
Inductive run_writes (t : TaskData) : list TaskData -> Prop :=
| rw_nothing : run_writes t []
| rw_failed_unstarted msg now : run_writes t [mark_failed msg now t]
| rw_processing : run_writes t [mark_processing t]
| rw_failed msg now :
    run_writes t [mark_processing t; mark_failed msg now (mark_processing t)]
| rw_completed counts now :
    run_writes t [mark_processing t; mark_completed counts now (mark_processing t)].

(** Once a terminal status shows up in the list, every later status is the
    same one. *)
Fixpoint one_directional (l : list TaskStatus) : bool :=
  match l with
  | [] => true
  | s :: rest =>
      (if terminal s then forallb (fun s' => bool_decide (s' = s)) rest else true)
      && one_directional rest
  end.

(** The statuses the key [k] goes through: the one it holds in [db], if
    any, then the ones written under it in [ws]. *)
Definition timeline (db : gmap string TaskData) (ws : list (string * TaskData))
    (k : string) : list TaskStatus :=
  match db !! k with
  | Some t => [status t]
  | None => []
  end ++ map (fun kd => status kd.2) (filter (fun kd => kd.1 = k) ws).

(** A service run: requests handled and notifications processed one after
    the other.  A failed submission is an HTTP answer, not a crash. *)
Inductive Op :=
| Submit (request : QuantumCircuitRequest)
| Process (task_id : string).

Definition exec_op (op : Op) : Py unit :=
  match op with
  | Submit request =>
      try_except (Api.submit_task request ;;; ret tt) (fun _ => ret tt)
  | Process task_id => Worker.process_task task_id
  end.

Fixpoint serve (ops : list Op) : Py unit :=
  match ops with
  | [] => ret tt
  | op :: rest => exec_op op ;;; serve rest
  end.

Definition processed (ops : list Op) : list string :=
  omap (fun op => match op with Process i => Some i | Submit _ => None end) ops.

(** Every id of [ids] that has a record in [db] has one that passes [ok]. *)
Definition records_pass (ok : TaskData -> bool) (db : gmap string TaskData)
    (ids : list string) : bool :=
  forallb (fun i => match db !! RedisClient.key_of i with
                    | Some t => ok t
                    | None => true
                    end) ids.

(** No record of [ids] has been brought to a terminal state yet. *)
Definition not_terminal_yet : gmap string TaskData -> list string -> bool :=
  records_pass (fun t => negb (terminal (status t))).

(** No record of [ids] has been touched by a processor run yet. *)
Definition not_processed_yet : gmap string TaskData -> list string -> bool :=
  records_pass untouched.

(** Every document sits under the key made from its own id. *)
Definition keyed_by_id (db : gmap string TaskData) : Prop :=
  forall k t, db !! k = Some t -> k = RedisClient.key_of (id t).

(** Slot accounting of the dispatch loop for capacity [N]: free slots plus
    coroutines in flight make [N], and handlers wait only when no slot is
    free. *)
Definition balanced (N : nat) (l : Worker.Loop) : Prop :=
  (Worker.sem_value l + length (Worker.spawned l) = N)%nat
  /\ (Worker.sem_waiters l = [] \/ Worker.sem_value l = 0%nat).

(** ** Concrete collaborators for the examples *)

Module Fixture.

Definition dq : string := String (Ascii.ascii_of_nat 34) EmptyString.

(** JSON text of a value (no escapes: the examples need none). *)
Fixpoint render (j : json) : string :=
  match j with
  | JNull => "null"
  | JBool true => "true"
  | JBool false => "false"
  | JInt z => str_of_int z
  | JStr s => dq +:+ s +:+ dq
  | JList l =>
      "[" +:+
      (fix items (l : list json) : string :=
         match l with
         | [] => EmptyString
         | [x] => render x
         | x :: rest => render x +:+ ", " +:+ items rest
         end) l +:+ "]"
  | JObj fields =>
      "{" +:+
      (fix items (l : list (string * json)) : string :=
         match l with
         | [] => EmptyString
         | [(k, v)] => dq +:+ k +:+ dq +:+ ": " +:+ render v
         | (k, v) :: rest =>
             dq +:+ k +:+ dq +:+ ": " +:+ render v +:+ ", " +:+ items rest
         end) fields +:+ "}"
  end.

(** A decoder that knows the documents [docs] and rejects any other text. *)
Definition loads_among (docs : list json) (s : string) : Res json :=
  match filter (fun j => String.eqb (render j) s = true) docs with
  | j :: _ => Ret j
  | [] => Raise (Exception "JSONDecodeError")
  end.

Definition bell_qasm : string :=
  "OPENQASM 3.0; qubit[2] q; bit[2] c; h q[0]; cx q[0], q[1]; c = measure q;".
Definition bell : QuantumCircuit := Circuit 2 2 bell_qasm.

Definition dumps (c : QuantumCircuit) : Res string :=
  let 'Circuit _ _ program := c in Ret program.
Definition loads (s : string) : Res QuantumCircuit :=
  if String.eqb s bell_qasm then Ret bell
  else Raise (Exception "QASM3ImporterError").

Definition bell_counts : Counts := [("00", 52); ("11", 48)].

Definition notification (task_id : string) : json :=
  JObj [("task_id", JStr task_id)].

Definition uuid (n : nat) : string := "task-" +:+ str_of_int (Z.of_nat n).

(** Everything works; the simulator returns [bell_counts]. *)
Definition calm : Env :=
  {| redis_fault := fun _ => None;
     nats_fault := fun _ => None;
     qasm3_dumps := dumps;
     qasm3_loads := loads;
     simulator_run := fun _ _ _ => Ret bell_counts;
     json_dumps := render;
     json_loads := loads_among [notification "a"; notification "b"];
     uuid4 := uuid |}.

(** As [calm], but the simulator fails on every run. *)
Definition engine_down : Env :=
  {| redis_fault := fun _ => None;
     nats_fault := fun _ => None;
     qasm3_dumps := dumps;
     qasm3_loads := loads;
     simulator_run := fun _ _ _ => Raise (Exception "Simulation failed");
     json_dumps := render;
     json_loads := loads_among [notification "a"; notification "b"];
     uuid4 := uuid |}.

(** As [calm], but every network call on the bus connection fails. *)
Definition bus_down : Env :=
  {| redis_fault := fun _ => None;
     nats_fault := fun _ => Some "nats: connection closed";
     qasm3_dumps := dumps;
     qasm3_loads := loads;
     simulator_run := fun _ _ _ => Ret bell_counts;
     json_dumps := render;
     json_loads := loads_among [notification "a"; notification "b"];
     uuid4 := uuid |}.

(** As [calm], with a decoder for one circuit payload. *)
Definition payload_codec : Env :=
  {| redis_fault := fun _ => None;
     nats_fault := fun _ => None;
     qasm3_dumps := dumps;
     qasm3_loads := loads;
     simulator_run := fun _ _ _ => Ret bell_counts;
     json_dumps := render;
     json_loads :=
       loads_among [CircuitUtils.payload_dict bell_qasm (Some 2048) bell];
     uuid4 := uuid |}.

(** As [calm], but the simulator works on its first run only. *)
Definition flaky : Env :=
  {| redis_fault := fun _ => None;
     nats_fault := fun _ => None;
     qasm3_dumps := dumps;
     qasm3_loads := loads;
     simulator_run :=
       fun n _ _ =>
         match n with
         | O => Ret bell_counts
         | S _ => Raise (Exception "Simulation failed")
         end;
     json_dumps := render;
     json_loads := loads_among [notification "a"; notification "b"];
     uuid4 := uuid |}.

(** As [calm], but Redis is lost from its [n]-th command on. *)
Definition redis_lost_from (n : nat) : Env :=
  {| redis_fault :=
       fun k => if (n <=? k)%nat then Some "redis: connection lost" else None;
     nats_fault := fun _ => None;
     qasm3_dumps := dumps;
     qasm3_loads := loads;
     simulator_run := fun _ _ _ => Ret bell_counts;
     json_dumps := render;
     json_loads := loads_among [notification "a"; notification "b"];
     uuid4 := uuid |}.

Definition bell_request : QuantumCircuitRequest :=
  {| quantum_circuit := bell_qasm; req_shots := 100 |}.

(** A freshly started service: empty key space, bus connected. *)
Definition fresh : World :=
  mkWorld ∅ false 0 [] true 0 [] ∅ 0 0 0.

(** Payloads that are JSON objects but name no task. *)
Definition no_task_id : json := JObj [("job", JStr "a")].
Definition null_task_id : json := JObj [("task_id", JNull)].

(** As [calm], with a decoder for those two payloads. *)
Definition odd_traffic : Env :=
  {| redis_fault := fun _ => None;
     nats_fault := fun _ => None;
     qasm3_dumps := dumps;
     qasm3_loads := loads;
     simulator_run := fun _ _ _ => Ret bell_counts;
     json_dumps := render;
     json_loads := loads_among [no_task_id; null_task_id];
     uuid4 := uuid |}.

(** As [calm], but the second network call on the bus fails. *)
Definition second_bus_call_fails : Env :=
  {| redis_fault := fun _ => None;
     nats_fault :=
       fun n => match n with
                | 1%nat => Some "nats: timeout"
                | _ => None
                end;
     qasm3_dumps := dumps;
     qasm3_loads := loads;
     simulator_run := fun _ _ _ => Ret bell_counts;
     json_dumps := render;
     json_loads := loads_among [notification "a"; notification "b"];
     uuid4 := uuid |}.

(** A circuit payload that carries the QASM text and nothing else. *)
Definition bare_payload : json := JObj [("qasm", JStr bell_qasm)].

(** As [calm], with a decoder for [bare_payload]. *)
Definition bare_payload_codec : Env :=
  {| redis_fault := fun _ => None;
     nats_fault := fun _ => None;
     qasm3_dumps := dumps;
     qasm3_loads := loads;
     simulator_run := fun _ _ _ => Ret bell_counts;
     json_dumps := render;
     json_loads := loads_among [bare_payload];
     uuid4 := uuid |}.

(** As [calm], but no circuit can be dumped to QASM. *)
Definition dump_fails : Env :=
  {| redis_fault := fun _ => None;
     nats_fault := fun _ => None;
     qasm3_dumps := fun _ => Raise (Exception "QASM3ExporterError");
     qasm3_loads := loads;
     simulator_run := fun _ _ _ => Ret bell_counts;
     json_dumps := render;
     json_loads := loads_among [notification "a"; notification "b"];
     uuid4 := uuid |}.

End Fixture.

(** * Properties *)

Ltac py_unfold :=
  unfold Api.submit_task, Api.get_task, Api.model_dump,
    Worker.process_task, Worker.handle_task_error,
    CircuitUtils.serialise_circuit_payload,
    CircuitUtils.deserialise_circuit_payload, CircuitUtils.subscript,
    CircuitUtils.qasm_to_circuit, CircuitUtils.circuit_to_qasm,
    CircuitUtils.execute_circuit,
    RedisClient.set_task, RedisClient.get_task, RedisClient.ensure_connected,
    RedisClient.connect, RedisClient.command, RedisClient.SET, RedisClient.GET,
    NATSClient.publish, NATSClient.connect, NATSClient.is_connected,
    NATSClient.network, NATSClient.send, NATSClient.set_connected,
    bind, try_except, try_finally, ret, raise, ask, get_world, modify,
    utcnow, uuid4_str, lift_res,
    with_redis_db, with_redis_handle, with_redis_calls, with_history,
    with_nc_connected, with_nats_calls, with_published, with_active_tasks,
    with_engine_calls, with_uuid_calls, with_clock in *.

(** ** The model on the end-to-end scenarios of the integration test *)

Example str_of_http_exception :
  str (HTTPException 500 "Redis error: down") = "500: Redis error: down".
Proof. reflexivity. Qed.

Example notification_text :
  json_dumps Fixture.calm (Fixture.notification "a") =
    "{" +:+ Fixture.dq +:+ "task_id" +:+ Fixture.dq +:+ ": "
        +:+ Fixture.dq +:+ "a" +:+ Fixture.dq +:+ "}".
Proof. reflexivity. Qed.

Example submit_then_process_completes :
  let w := (serve [Submit Fixture.bell_request; Process "task-0"]
              Fixture.calm Fixture.fresh).2 in
  redis_db w !! "task:task-0" =
    Some (mkTask "task-0" Fixture.bell_qasm 100 COMPLETED
                 (Some Fixture.bell_counts) None 0 (Some 0))
  /\ published w = [("tasks", json_dumps Fixture.calm (Fixture.notification "task-0"))]
  /\ active_tasks w = ∅.
Proof. cbv zeta. repeat split; vm_compute; reflexivity. Qed.

Example submit_then_engine_failure_fails :
  let w := (serve [Submit Fixture.bell_request; Process "task-0"]
              Fixture.engine_down Fixture.fresh).2 in
  redis_db w !! "task:task-0" =
    Some (mkTask "task-0" Fixture.bell_qasm 100 FAILED
                 None (Some "Simulation failed") 0 (Some 0)).
Proof. vm_compute. reflexivity. Qed.

Example get_task_after_submit :
  let w := (serve [Submit Fixture.bell_request] Fixture.calm Fixture.fresh).2 in
  (Api.get_task "task-0" Fixture.calm w).1 =
    Ret (Some (mkTask "task-0" Fixture.bell_qasm 100 PENDING None None 0 None)).
Proof. vm_compute. reflexivity. Qed.

(** Case analysis on the next thing the match in the goal waits for. *)
Ltac py_case :=
  match goal with
  | H : ?x = _ |- context [match ?x with _ => _ end] => rewrite H
  | |- context [match redis_fault ?e ?n with _ => _ end] =>
      destruct (redis_fault e n) eqn:?
  | |- context [match nats_fault ?e ?n with _ => _ end] =>
      destruct (nats_fault e n) eqn:?
  | |- context [match qasm3_loads ?e ?s with _ => _ end] =>
      destruct (qasm3_loads e s) eqn:?
  | |- context [match simulator_run ?e ?n ?c ?k with _ => _ end] =>
      destruct (simulator_run e n c k) eqn:?
  | |- context [if redis_handle ?w then _ else _] =>
      destruct (redis_handle w) eqn:?
  | |- context [if nc_connected ?w then _ else _] =>
      destruct (nc_connected w) eqn:?
  | |- context [<[?k := ?v]> ?m !! ?k] => rewrite (lookup_insert_eq m k v)
  end; simpl.

Ltac py_run := py_unfold; simpl; repeat py_case.

(** ** Submission *)

Section Submission.

Variables (env : Env) (w : World) (request : QuantumCircuitRequest).

Lemma submit_task_store_fails msg :
  redis_fault env (redis_calls w) = Some msg ->
  Api.submit_task request env w =
    (Raise (HTTPException 500
              ("Error creating task: 500: Redis error: " +:+ msg)),
     with_redis_calls (S (redis_calls w))
       (with_redis_handle true (with_uuid_calls (S (uuid_calls w)) w))).
Proof.
  intros Hf. py_run; reflexivity.
Qed.

Lemma submit_task_store_ok :
  redis_fault env (redis_calls w) = None ->
  exists w' bus,
    Api.submit_task request env w =
      (Ret {| task_id := uuid4 env (uuid_calls w); resp_status := "pending" |}, w')
    /\ redis_db w' =
         <[submitted_key env w := submitted env w request]> (redis_db w)
    /\ history w' =
         history w ++ Stored (submitted_key env w) (submitted env w request) :: bus
    /\ Forall (eq BusCall) bus.
Proof.
  intros Hf. unfold submitted_key, submitted.
  py_run; eexists _, _; (split; [reflexivity|]); simpl;
    (split; [reflexivity|]); rewrite <- ?app_assoc; simpl;
    (split; [reflexivity|]); repeat constructor.
Qed.

End Submission.

(** C6.  [submit_task] stores the PENDING task before it touches the bus:
    when the Redis write fails the request fails with HTTP 500 (a Redis
    error), nothing is stored and no bus call is made; when it succeeds the
    stored document comes first in the effects of the request and only bus
    calls follow it. *)
Theorem submit_persists_before_notifying (env : Env) (w : World)
    (request : QuantumCircuitRequest) :
  let out := Api.submit_task request env w in
  match redis_fault env (redis_calls w) with
  | Some msg =>
      out.1 = Raise (HTTPException 500
                       ("Error creating task: 500: Redis error: " +:+ msg))
      /\ redis_db out.2 = redis_db w
      /\ history out.2 = history w
      /\ published out.2 = published w
  | None =>
      status (submitted env w request) = PENDING
      /\ redis_db out.2 !! submitted_key env w = Some (submitted env w request)
      /\ exists bus,
           history out.2 =
             history w ++ Stored (submitted_key env w) (submitted env w request) :: bus
           /\ Forall (eq BusCall) bus
  end.
Proof.
  destruct (redis_fault env (redis_calls w)) as [msg|] eqn:Hf; cbv zeta.
  - rewrite (submit_task_store_fails env w request msg Hf). auto.
  - destruct (submit_task_store_ok env w request Hf) as (w' & bus & -> & Hdb & Hh & Hb).
    simpl. split; [reflexivity|]. split.
    + rewrite Hdb. apply lookup_insert_eq.
    + eauto.
Qed.

(** C7.  Once the Redis write has succeeded, [submit_task] returns
    [(task_id, "pending")] whatever the bus does: connected or not, publish
    raising or not. *)
Theorem submit_survives_bus_failure (env : Env) (w : World)
    (request : QuantumCircuitRequest) :
  redis_fault env (redis_calls w) = None ->
  (Api.submit_task request env w).1 =
    Ret {| task_id := uuid4 env (uuid_calls w); resp_status := "pending" |}.
Proof.
  intros Hf.
  destruct (submit_task_store_ok env w request Hf) as (w' & bus & -> & _).
  reflexivity.
Qed.

Lemma submit_survives_bus_failure_witness :
  redis_fault Fixture.bus_down (redis_calls Fixture.fresh) = None
  /\ (Api.submit_task
        {| quantum_circuit := Fixture.bell_qasm; req_shots := 100 |}
        Fixture.bus_down Fixture.fresh).1 =
     Ret {| task_id := uuid4 Fixture.bus_down 0; resp_status := "pending" |}.
Proof.
  split; [reflexivity|].
  apply (submit_survives_bus_failure Fixture.bus_down Fixture.fresh).
  reflexivity.
Defined.

(** C1.  The request model the endpoint uses, [QuantumCircuitRequest],
    accepts the body [{quantum_circuit, shots: 0}] that [TaskRequest]
    ([gt=0]) rejects, and [submit_task] then stores a PENDING task with
    [shots = 0] and answers [(task_id, "pending")]. *)
Theorem submit_accepts_zero_shots :
  TaskRequest_validate Fixture.bell_qasm (Some 0) = None
  /\ exists request,
       QuantumCircuitRequest_validate Fixture.bell_qasm (Some 0) = Some request
       /\ let out := Api.submit_task request Fixture.calm Fixture.fresh in
          out.1 = Ret {| task_id := "task-0"; resp_status := "pending" |}
          /\ redis_db out.2 !! "task:task-0" =
               Some (mkTask "task-0" Fixture.bell_qasm 0 PENDING None None 0 None)
          /\ writes out.2 =
               [("task:task-0",
                 mkTask "task-0" Fixture.bell_qasm 0 PENDING None None 0 None)].
Proof.
  split; [reflexivity|]. eexists; split; [reflexivity|].
  cbv zeta. split; [reflexivity|]. split; [|reflexivity].
  vm_compute. reflexivity.
Qed.

(** ** Retrieval *)

(** C8.  With Redis answering, [get_task] of an id with no key is HTTP 404
    "Task not found", [get_task] of an id with a key returns the stored
    document as it is, and neither changes the key space. *)
Theorem get_task_read_through (env : Env) (w : World) (task_id : string) :
  redis_fault env (redis_calls w) = None ->
  let out := Api.get_task task_id env w in
  redis_db out.2 = redis_db w
  /\ history out.2 = history w
  /\ match redis_db w !! RedisClient.key_of task_id with
     | None => out.1 = Raise (HTTPException 404 "Task not found")
     | Some t => out.1 = Ret (Some t)
     end.
Proof.
  intros Hf. cbv zeta.
  destruct (redis_db w !! RedisClient.key_of task_id) eqn:Hk;
    py_run; auto.
Qed.

Lemma get_task_read_through_witness :
  redis_fault Fixture.calm (redis_calls Fixture.fresh) = None
  /\ (Api.get_task "non-existent-id" Fixture.calm Fixture.fresh).1 =
     Raise (HTTPException 404 "Task not found").
Proof.
  split; [reflexivity|].
  apply (get_task_read_through Fixture.calm Fixture.fresh "non-existent-id").
  reflexivity.
Defined.

(** ** Task processor *)

Lemma active_add_discard (s : gset string) (x : string) :
  (s ∪ {[x]}) ∖ {[x]} = s ∖ {[x]}.
Proof. apply set_eq. intros y. rewrite !elem_of_difference, elem_of_union. tauto. Qed.

(** C9.  [process_task] on an id with no key in Redis returns normally,
    whatever Redis does during the run, and stores nothing: the key space,
    the effect history and the published messages are as before, and the
    id is not left in the active set. *)
Theorem unknown_task_is_dropped (env : Env) (w : World) (task_id : string) :
  redis_db w !! RedisClient.key_of task_id = None ->
  let out := Worker.process_task task_id env w in
  out.1 = Ret tt
  /\ redis_db out.2 = redis_db w
  /\ history out.2 = history w
  /\ published out.2 = published w
  /\ active_tasks out.2 = active_tasks w ∖ {[task_id]}.
Proof.
  intros Hk. cbv zeta.
  py_run; repeat split; try reflexivity; apply active_add_discard.
Qed.

Lemma unknown_task_is_dropped_witness :
  redis_db Fixture.fresh !! RedisClient.key_of "ghost" = None
  /\ (Worker.process_task "ghost" Fixture.calm Fixture.fresh).1 = Ret tt.
Proof.
  split; [reflexivity|].
  apply (unknown_task_is_dropped Fixture.calm Fixture.fresh "ghost").
  reflexivity.
Defined.

(** ** Circuit payloads *)

(** C10.  When the QASM conversions succeed and [json.loads] reads back the
    text [json.dumps] wrote, deserialising the serialised payload of a
    circuit gives the circuit the QASM text loads to, with [shots] equal to
    the [shots] argument when that is a positive integer and equal to 1024
    when the argument is [None] or 0. *)
Theorem payload_round_trip (env : Env) (w : World) (c c' : QuantumCircuit)
    (s : option Z) (q : string) :
  qasm3_dumps env c = Ret q ->
  qasm3_loads env q = Ret c' ->
  json_loads env (json_dumps env (CircuitUtils.payload_dict q s c)) =
    Ret (CircuitUtils.payload_dict q s c) ->
  exists p,
    (payload_str <- CircuitUtils.serialise_circuit_payload c s ;;
     CircuitUtils.deserialise_circuit_payload payload_str) env w = (Ret p, w)
    /\ CircuitUtils.circuit p = c'
    /\ (forall z, s = Some z -> 0 < z -> CircuitUtils.pl_shots p = JInt z)
    /\ (s = None \/ s = Some 0 -> CircuitUtils.pl_shots p = JInt 1024).
Proof.
  intros Hd Hl Hj. py_unfold. simpl. rewrite Hd. simpl. rewrite Hj. simpl.
  rewrite Hl. simpl. eexists. split; [reflexivity|]. simpl.
  split; [reflexivity|]. split.
  - intros z -> Hz. simpl. destruct (Z.eqb_spec z 0); [lia | reflexivity].
  - intros [-> | ->]; reflexivity.
Qed.

Lemma payload_round_trip_witness :
  exists p,
    (payload_str <-
       CircuitUtils.serialise_circuit_payload Fixture.bell (Some 2048) ;;
     CircuitUtils.deserialise_circuit_payload payload_str)
      Fixture.payload_codec Fixture.fresh = (Ret p, Fixture.fresh)
    /\ CircuitUtils.circuit p = Fixture.bell
    /\ (forall z, Some 2048 = Some z -> 0 < z -> CircuitUtils.pl_shots p = JInt z)
    /\ (Some 2048 = None \/ Some 2048 = Some 0 ->
        CircuitUtils.pl_shots p = JInt 1024).
Proof.
  apply (payload_round_trip Fixture.payload_codec Fixture.fresh
           Fixture.bell Fixture.bell (Some 2048) Fixture.bell_qasm);
    reflexivity.
Defined.

(** ** Dispatch *)

(** A message whose decoded payload is a JSON object: the handler neither
    raises nor reaches its [except] clause on it. *)
Lemma handle_task_message_object (env : Env) (data : string) (l : Worker.Loop)
    (fields : list (string * json)) :
  json_loads env data = Ret (JObj fields) ->
  Worker.handle_task_message env data l = l
  \/ exists task_id,
       Worker.handle_task_message env data l = Worker.acquire_then_spawn task_id l.
Proof.
  intros Hj. unfold Worker.handle_task_message, Worker.read_task_id.
  rewrite Hj. destruct (CircuitUtils.dict_lookup "task_id" fields) as [v|].
  - destruct (negb (Worker.truthy v)); eauto.
  - simpl. auto.
Qed.

Section SlotAccounting.

Variable N : nat.

Lemma balanced_start : balanced N (Worker.start N).
Proof. split; simpl; [lia | auto]. Qed.

Lemma balanced_acquire task_id l :
  balanced N l -> balanced N (Worker.acquire_then_spawn task_id l).
Proof.
  intros [Hsum Hw]. unfold Worker.acquire_then_spawn, Worker.locked.
  destruct l as [v ws sp]; simpl in *.
  destruct v as [|v]; simpl.
  - split; simpl; [assumption | auto].
  - destruct Hw as [-> | Hv]; [|discriminate]. simpl.
    split; simpl; [rewrite length_app; simpl; lia | auto].
Qed.

Lemma balanced_done i l l' :
  balanced N l -> Worker.task_done i l = Some l' -> balanced N l'.
Proof.
  intros [Hsum Hw]. unfold Worker.task_done.
  destruct (Worker.spawned l !! i) as [x|] eqn:Hi; [|discriminate].
  intros [= <-]. destruct l as [v ws sp]; simpl in *.
  assert (Hlen : (S (length (delete i sp)) = length sp)%nat).
  { rewrite length_delete by eauto.
    apply lookup_lt_Some in Hi. lia. }
  unfold Worker.release; simpl. destruct ws as [|t rest]; simpl.
  - split; simpl; [lia | auto].
  - destruct Hw as [Hw | ->]; [discriminate|].
    split; simpl; [rewrite length_app; simpl; lia | auto].
Qed.

End SlotAccounting.

(** With only well-formed traffic the semaphore does its job: the value of
    [sem] plus the number of coroutines in flight stays at the capacity. *)
Lemma dispatch_bound_well_formed (env : Env) (N : nat) (evs : list Worker.Event)
    (l : Worker.Loop) :
  Forall (fun ev =>
            match ev with
            | Worker.Deliver data => exists fields, json_loads env data = Ret (JObj fields)
            | Worker.Done _ => True
            end) evs ->
  Worker.run env (Worker.start N) evs = Some l ->
  (length (Worker.spawned l) <= N)%nat /\ (Worker.sem_value l <= N)%nat.
Proof.
  intros Hev Hrun.
  assert (Hb : balanced N l).
  { generalize (balanced_start N). revert Hrun.
    generalize (Worker.start N) as l0.
    induction Hev as [|ev evs Hhd _ IH]; intros l0 Hrun Hb0;
      cbn [Worker.run Worker.step] in Hrun.
    - congruence.
    - destruct ev as [data | i]; unfold Worker.step in Hrun.
      + destruct Hhd as [fields Hj].
        destruct (handle_task_message_object env data l0 fields Hj)
          as [Heq | [t Heq]]; rewrite Heq in Hrun;
          eauto using balanced_acquire.
      + destruct (Worker.task_done i l0) as [l1|] eqn:Hd; [|discriminate].
        eauto using balanced_done. }
  destruct Hb as [Hsum _]. lia.
Qed.

(** C3.  With capacity 1, one message that is not JSON followed by two
    notifications for tasks "a" and "b": the handler's [except] clause
    releases a slot it never acquired, [sem] goes to 2, and both tasks are
    in flight at once. *)
Theorem undecodable_message_adds_a_slot :
  Worker.run Fixture.calm (Worker.start 1) [Worker.Deliver "not json"] =
    Some (Worker.mkLoop 2 [] [])
  /\ Worker.run Fixture.calm (Worker.start 1)
       [Worker.Deliver "not json";
        Worker.Deliver (json_dumps Fixture.calm (Fixture.notification "a"));
        Worker.Deliver (json_dumps Fixture.calm (Fixture.notification "b"))] =
     Some (Worker.mkLoop 0 [] [JStr "a"; JStr "b"]).
Proof. split; reflexivity. Qed.

(** ** Shutdown *)

(** Whatever is in the active set, the wait ends after the 100 ms sleeps. *)
Lemma gather_sleeps (n : nat) :
  Asyncio.gather (map (fun _ => Asyncio.sleep 100) (seq 0 (S n))) = (100, Ret tt).
Proof.
  generalize 0%nat. induction n as [|n IH]; intros k.
  - reflexivity.
  - change (seq k (S (S n))) with (k :: seq (S k) (S n)).
    rewrite map_cons. unfold Asyncio.gather in *. simpl map. simpl foldr.
    specialize (IH (S k)). simpl in IH. injection IH as IH1 IH2.
    simpl. rewrite IH1, IH2. reflexivity.
Qed.

Lemma shutdown_wait (env : Env) (w : World) :
  active_tasks w <> ∅ ->
  exists w',
    Worker.shutdown env w = (Ret tt, w')
    /\ clock w' = clock w + 100
    /\ active_tasks w' = active_tasks w
    /\ nc_connected w' = nc_connected w && bool_decide (is_Some (nats_fault env (nats_calls w)))
    /\ redis_handle w' = false.
Proof.
  intros Hne. unfold Worker.shutdown.
  unfold bind at 1. unfold get_world. cbn beta iota.
  rewrite bool_decide_eq_false_2 by assumption.
  destruct (size (active_tasks w)) as [|n] eqn:Hsz.
  { apply size_empty_inv in Hsz. apply leibniz_equiv in Hsz. contradiction. }
  rewrite gather_sleeps.
  unfold NATSClient.disconnect, RedisClient.disconnect, RedisClient.CLOSE,
    Asyncio.wait_for, Asyncio.await, Worker.shutdown_timeout.
  py_run; eexists; (split; [reflexivity|]); simpl; auto.
Qed.

(** C4.  One task is active and stays so: [shutdown] goes on to disconnect
    100 ms after the signal, well before the 10 s drain timeout, with the
    task still in the active set, and closes both connections. *)
Theorem shutdown_does_not_wait_for_tasks :
  let w := with_redis_handle true
             (with_active_tasks {["held"]} Fixture.fresh) in
  let out := Worker.shutdown Fixture.calm w in
  out.1 = Ret tt
  /\ clock out.2 = clock w + 100
  /\ clock out.2 < clock w + Worker.shutdown_timeout
  /\ active_tasks out.2 = {["held"]}
  /\ nc_connected w = true /\ nc_connected out.2 = false
  /\ redis_handle w = true /\ redis_handle out.2 = false.
Proof.
  cbv zeta.
  assert (Hne : active_tasks
                  (with_redis_handle true
                     (with_active_tasks {["held"]} Fixture.fresh)) <> ∅).
  { simpl. apply non_empty_singleton_L. }
  destruct (shutdown_wait Fixture.calm _ Hne) as (w' & -> & Hc & Ha & Hn & Hh).
  simpl. split; [reflexivity|]. split; [exact Hc|]. split.
  { rewrite Hc. unfold Worker.shutdown_timeout. simpl. lia. }
  split; [exact Ha|].
  split; [reflexivity|]. split; [exact Hn|]. split; [reflexivity | exact Hh].
Qed.

(** ** Status and result/error over processor runs *)

Section OneRun.

Variables (env : Env) (w : World) (task_id : string).

Let key := RedisClient.key_of task_id.

(** What one run of [process_task] does, on every path through it. *)
Lemma process_task_effects :
  exists w' ws,
    Worker.process_task task_id env w = (Ret tt, w')
    /\ history w' = history w ++ map (Stored key) ws
    /\ redis_db w' = foldl (fun db d => <[key := d]> db) (redis_db w) ws
    /\ match redis_db w !! key with
       | None => ws = []
       | Some t => run_writes t ws
       end.
Proof.
  subst key.
  destruct (redis_db w !! RedisClient.key_of task_id) as [t|] eqn:Hk.
  - py_run.
    all: try (eexists _, []; split; [reflexivity|]; simpl;
              rewrite ?app_nil_r; repeat split; constructor).
    all: try (eexists _, [_]; split; [reflexivity|]; simpl;
              repeat split; econstructor).
    all: try (eexists _, [_; _]; split; [reflexivity|]; simpl;
              rewrite <- ?app_assoc; simpl; repeat split; econstructor).
  - py_run.
    all: eexists _, []; split; [reflexivity|]; simpl;
      rewrite ?app_nil_r; repeat split; reflexivity.
Qed.

End OneRun.

Lemma key_of_inj (a b : string) :
  RedisClient.key_of a = RedisClient.key_of b -> a = b.
Proof. unfold RedisClient.key_of. intros H. cbv in H. congruence. Qed.

Lemma writes_history_app (w w' : World) (h : list Effect) :
  history w' = history w ++ h ->
  writes w' = writes w ++ omap stored_doc h.
Proof. unfold writes. intros ->. apply omap_app. Qed.

Lemma writes_stored (w w' : World) (key : string) (ws : list TaskData) :
  history w' = history w ++ map (Stored key) ws ->
  writes w' = writes w ++ map (pair key) ws.
Proof.
  intros H. rewrite (writes_history_app w w' _ H). f_equal. clear H.
  induction ws as [|d ws IH]; simpl; [reflexivity | f_equal; exact IH].
Qed.

Lemma lookup_foldl_insert_ne (key k : string) (ws : list TaskData)
    (m : gmap string TaskData) :
  k <> key ->
  foldl (fun db d => <[key := d]> db) m ws !! k = m !! k.
Proof.
  intros Hne. revert m. induction ws as [|d ws IH]; intros m; simpl.
  - reflexivity.
  - rewrite IH. apply lookup_insert_ne. congruence.
Qed.

Lemma filter_key_same (key : string) (ws : list TaskData) :
  filter (fun kd : string * TaskData => kd.1 = key) (map (pair key) ws) =
    map (pair key) ws.
Proof.
  induction ws as [|d ws IH]; simpl; [reflexivity|].
  rewrite filter_cons_True by reflexivity. now rewrite IH.
Qed.

Lemma filter_key_other (key k : string) (ws : list TaskData) :
  k <> key ->
  filter (fun kd : string * TaskData => kd.1 = k) (map (pair key) ws) = [].
Proof.
  intros Hne. induction ws as [|d ws IH]; simpl; [reflexivity|].
  rewrite filter_cons_False by (simpl; congruence). exact IH.
Qed.

Lemma filter_key_absent (k : string) (ws : list (string * TaskData)) :
  (forall d, (k, d) ∉ ws) ->
  filter (fun kd : string * TaskData => kd.1 = k) ws = [].
Proof.
  intros Hno. induction ws as [|[k' d] ws IH]; [reflexivity|].
  rewrite filter_cons_False.
  - apply IH. intros d' Hin. apply (Hno d'). now right.
  - simpl. intros ->. apply (Hno d). now left.
Qed.

(** Within one run on a record that is not terminal, the statuses go one
    way. *)
Lemma run_writes_one_directional (t : TaskData) (ws : list TaskData) :
  terminal (status t) = false ->
  run_writes t ws ->
  one_directional (status t :: map status ws) = true.
Proof.
  intros Ht Hrw. destruct Hrw; simpl; rewrite Ht; reflexivity.
Qed.

Lemma run_writes_statuses (t : TaskData) (ws : list TaskData) :
  run_writes t ws ->
  one_directional (map status ws) = true
  /\ Forall (fun d => status d <> PENDING) ws.
Proof.
  intros Hrw. destruct Hrw; simpl; split; try reflexivity;
    repeat constructor; discriminate.
Qed.

Lemma consistent_cases (t : TaskData) :
  (result t = None /\ error t = None /\ terminal (status t) = false)
  \/ (is_Some (result t) /\ error t = None /\ status t = COMPLETED)
  \/ (result t = None /\ is_Some (error t) /\ status t = FAILED) ->
  consistent t.
Proof.
  unfold consistent.
  intros [(Hr & He & Hs) | [(Hr & He & Hs) | (Hr & He & Hs)]];
    rewrite ?Hr, ?He, ?Hs in *; split; split; try done;
    try (intros [? [=]]); try (intros ->; discriminate);
    intros Hst; rewrite Hst in Hs; discriminate.
Qed.

Lemma untouched_spec (t : TaskData) :
  untouched t = true ->
  terminal (status t) = false /\ result t = None /\ error t = None.
Proof.
  unfold untouched. rewrite !andb_true_iff, !bool_decide_eq_true, negb_true_iff.
  tauto.
Qed.

Lemma run_writes_consistent (t : TaskData) (ws : list TaskData) :
  untouched t = true ->
  run_writes t ws ->
  Forall consistent ws.
Proof.
  intros Hu Hrw. apply untouched_spec in Hu as (Ht & Hr & He).
  destruct Hrw; repeat constructor; apply consistent_cases; simpl;
    rewrite ?Hr, ?He; eauto 10.
Qed.

Lemma records_pass_spec (ok : TaskData -> bool) (db : gmap string TaskData)
    (ids : list string) :
  records_pass ok db ids = true <->
  forall i t, i ∈ ids -> db !! RedisClient.key_of i = Some t -> ok t = true.
Proof.
  unfold records_pass. rewrite forallb_forall. split.
  - intros H i t Hi Hk. apply list_elem_of_In in Hi.
    specialize (H i Hi). now rewrite Hk in H.
  - intros H i Hi. apply list_elem_of_In in Hi.
    destruct (db !! RedisClient.key_of i) as [t|] eqn:Hk; eauto.
Qed.

Lemma records_pass_other_key (ok : TaskData -> bool)
    (db db' : gmap string TaskData) (ids : list string) :
  (forall i, i ∈ ids -> db' !! RedisClient.key_of i = db !! RedisClient.key_of i) ->
  records_pass ok db ids = true -> records_pass ok db' ids = true.
Proof.
  rewrite !records_pass_spec. intros Hsame H i t Hi Hk.
  rewrite (Hsame i Hi) in Hk. eauto.
Qed.

Lemma omap_bus_calls (bus : list Effect) :
  Forall (eq BusCall) bus -> omap stored_doc bus = [].
Proof. induction 1 as [|e bus <- _ IH]; [reflexivity | exact IH]. Qed.

Lemma consistent_not_both (t : TaskData) :
  consistent t -> ~ (is_Some (result t) /\ is_Some (error t)).
Proof.
  intros [Hr He] [H1 H2]. apply Hr in H1. apply He in H2. congruence.
Qed.

Lemma submitted_untouched (env : Env) (w : World) (request : QuantumCircuitRequest) :
  untouched (submitted env w request) = true.
Proof. reflexivity. Qed.

Lemma submitted_consistent (env : Env) (w : World) (request : QuantumCircuitRequest) :
  consistent (submitted env w request).
Proof. apply consistent_cases. left. auto. Qed.

(** One request or one run keeps the stored and the written records
    consistent, and leaves the ids still to be processed untouched. *)
Lemma exec_op_consistent (env : Env) (op : Op) (rest : list Op) (w : World) :
  NoDup (processed (op :: rest)) ->
  not_processed_yet (redis_db w) (processed (op :: rest)) = true ->
  exists w' ws,
    exec_op op env w = (Ret tt, w')
    /\ writes w' = writes w ++ ws
    /\ Forall (fun kd => consistent kd.2) ws
    /\ not_processed_yet (redis_db w') (processed rest) = true.
Proof.
  unfold not_processed_yet. destruct op as [request | task_id].
  - change (processed (Submit request :: rest)) with (processed rest).
    intros _ Hready. simpl exec_op.
    destruct (redis_fault env (redis_calls w)) as [msg|] eqn:Hf.
    + exists (with_redis_calls (S (redis_calls w))
                (with_redis_handle true (with_uuid_calls (S (uuid_calls w)) w))), [].
      unfold try_except, bind.
      rewrite (submit_task_store_fails env w request msg Hf).
      rewrite app_nil_r. simpl. auto.
    + destruct (submit_task_store_ok env w request Hf)
        as (w' & bus & Heq & Hdb & Hh & Hbus).
      exists w', [(submitted_key env w, submitted env w request)].
      unfold try_except, bind. rewrite Heq. simpl.
      split; [reflexivity|]. split.
      { rewrite (writes_history_app w w' _ Hh). simpl.
        do 2 f_equal. exact (omap_bus_calls bus Hbus). }
      split.
      { repeat constructor; apply submitted_consistent. }
      apply records_pass_spec. intros i t Hi. rewrite Hdb, lookup_insert.
      case_decide.
      * intros [= <-]. apply submitted_untouched.
      * intros Hk. exact (proj1 (records_pass_spec _ _ _) Hready i t Hi Hk).
  - change (processed (Process task_id :: rest)) with (task_id :: processed rest).
    intros Hnd Hready. apply NoDup_cons in Hnd as [Hfresh Hnd]. simpl exec_op.
    destruct (process_task_effects env w task_id) as (w' & ws & Heq & Hh & Hdb & Hrw).
    exists w', (map (pair (RedisClient.key_of task_id)) ws).
    split; [exact Heq|]. split; [now apply writes_stored|]. split.
    + apply Forall_map. simpl.
      destruct (redis_db w !! RedisClient.key_of task_id) as [t|] eqn:Hk.
      * apply (run_writes_consistent t); [|exact Hrw].
        apply (proj1 (records_pass_spec _ _ _) Hready task_id t);
          [now left | exact Hk].
      * subst ws. constructor.
    + apply (records_pass_other_key _ (redis_db w)).
      * intros i Hi. rewrite Hdb. apply lookup_foldl_insert_ne.
        intros Hkey. apply key_of_inj in Hkey. subst i. contradiction.
      * apply records_pass_spec. intros i t Hi.
        apply (proj1 (records_pass_spec _ _ _) Hready). now right.
Qed.

(** C5, as the code has it.  Over every run of the service (submissions
    and processor runs, in any order, whatever Redis, the bus and the
    simulator do) in which no task id is processed twice and the ids to be
    processed start from records no run has touched, every record written
    has a result exactly when COMPLETED and an error exactly when FAILED,
    and never both. *)
Theorem persisted_records_consistent (env : Env) (ops : list Op) (w : World) :
  NoDup (processed ops) ->
  not_processed_yet (redis_db w) (processed ops) = true ->
  exists w' ws,
    serve ops env w = (Ret tt, w')
    /\ writes w' = writes w ++ ws
    /\ Forall (fun kd =>
                 consistent kd.2
                 /\ ~ (is_Some (result kd.2) /\ is_Some (error kd.2))) ws.
Proof.
  revert w. induction ops as [|op rest IH]; intros w Hnd Hready.
  - exists w, []. rewrite app_nil_r. repeat split. constructor.
  - destruct (exec_op_consistent env op rest w Hnd Hready)
      as (w1 & ws1 & Heq1 & Hw1 & Hc1 & Hready1).
    assert (Hnd1 : NoDup (processed rest)).
    { destruct op; simpl in Hnd; [exact Hnd | now apply NoDup_cons in Hnd]. }
    destruct (IH w1 Hnd1 Hready1) as (w2 & ws2 & Heq2 & Hw2 & Hc2).
    exists w2, (ws1 ++ ws2). simpl. unfold bind. rewrite Heq1.
    split; [exact Heq2|]. split.
    + rewrite Hw2, Hw1. now rewrite app_assoc.
    + apply Forall_app. split; [|exact Hc2].
      eapply Forall_impl; [exact Hc1|].
      intros kd Hk. split; [exact Hk | now apply consistent_not_both].
Qed.

Lemma processed_map_Process (ids : list string) :
  processed (map Process ids) = ids.
Proof.
  induction ids as [|i ids IH]; [reflexivity|].
  change (processed (map Process (i :: ids)))
    with (i :: processed (map Process ids)).
  now rewrite IH.
Qed.

Lemma timeline_own_key (db : gmap string TaskData) (key : string)
    (ws1 : list TaskData) (ws2 : list (string * TaskData)) :
  (forall d, (key, d) ∉ ws2) ->
  timeline db (map (pair key) ws1 ++ ws2) key =
    match db !! key with Some t => [status t] | None => [] end ++ map status ws1.
Proof.
  intros Habs. unfold timeline.
  rewrite filter_app, filter_key_same, (filter_key_absent key ws2 Habs).
  rewrite app_nil_r, map_map. reflexivity.
Qed.

Lemma timeline_other_key (db db' : gmap string TaskData) (key k : string)
    (ws1 : list TaskData) (ws2 : list (string * TaskData)) :
  k <> key -> db' !! k = db !! k ->
  timeline db (map (pair key) ws1 ++ ws2) k = timeline db' ws2 k.
Proof.
  intros Hne Hdb. unfold timeline.
  rewrite filter_app, (filter_key_other key k ws1 Hne), Hdb. reflexivity.
Qed.

(** Runs on pairwise different ids, each starting from a record that is
    not terminal: what they write, where, and the status timeline of every
    key. *)
Lemma serve_runs_timeline (env : Env) (ids : list string) :
  forall w,
    NoDup ids ->
    not_terminal_yet (redis_db w) ids = true ->
    exists w' ws,
      serve (map Process ids) env w = (Ret tt, w')
      /\ writes w' = writes w ++ ws
      /\ (forall k d, (k, d) ∈ ws -> exists i, i ∈ ids /\ k = RedisClient.key_of i)
      /\ (forall k, (forall i, i ∈ ids -> k <> RedisClient.key_of i) ->
                    redis_db w' !! k = redis_db w !! k)
      /\ Forall (fun kd => status kd.2 <> PENDING) ws
      /\ forall k, one_directional (timeline (redis_db w) ws k) = true.
Proof.
  unfold not_terminal_yet.
  induction ids as [|i rest IH]; intros w Hnd Hready.
  - exists w, []. rewrite app_nil_r. repeat split; try constructor.
    + intros k d Hin. inversion Hin.
    + intros k. unfold timeline. simpl.
      destruct (redis_db w !! k) as [t|]; simpl;
        [destruct (terminal (status t))|]; reflexivity.
  - apply NoDup_cons in Hnd as [Hfresh Hnd].
    destruct (process_task_effects env w i)
      as (w1 & ws1 & Heq1 & Hh1 & Hdb1 & Hrw1).
    assert (Hother : forall k, k <> RedisClient.key_of i ->
                               redis_db w1 !! k = redis_db w !! k).
    { intros k Hk. rewrite Hdb1. now apply lookup_foldl_insert_ne. }
    assert (Hready1 : records_pass (fun t => negb (terminal (status t)))
                        (redis_db w1) rest = true).
    { apply (records_pass_other_key _ (redis_db w)).
      - intros j Hj. apply Hother. intros Hkey. apply key_of_inj in Hkey.
        subst j. contradiction.
      - apply records_pass_spec. intros j t Hj.
        apply (proj1 (records_pass_spec _ _ _) Hready). now right. }
    destruct (IH w1 Hnd Hready1)
      as (w2 & ws2 & Heq2 & Hw2 & Hkeys2 & Hdb2 & Hnp2 & Htl2).
    assert (Habs : forall d, (RedisClient.key_of i, d) ∉ ws2).
    { intros d Hin. destruct (Hkeys2 _ _ Hin) as (j & Hj & Hkey).
      apply key_of_inj in Hkey. subst j. contradiction. }
    exists w2, (map (pair (RedisClient.key_of i)) ws1 ++ ws2).
    split. { simpl. unfold bind. rewrite Heq1. exact Heq2. }
    split. { rewrite Hw2, (writes_stored w w1 _ ws1 Hh1). now rewrite app_assoc. }
    split.
    { intros k d Hin. apply elem_of_app in Hin as [Hin | Hin].
      - apply list_elem_of_In, in_map_iff in Hin as (d' & [= <- <-] & _).
        exists i. split; [now left | reflexivity].
      - destruct (Hkeys2 k d Hin) as (j & Hj & ->).
        exists j. split; [now right | reflexivity]. }
    split.
    { intros k Hk. rewrite Hdb2.
      - apply Hother, Hk. now left.
      - intros j Hj. apply Hk. now right. }
    split.
    { apply Forall_app. split; [|exact Hnp2]. apply Forall_map. simpl.
      destruct (redis_db w !! RedisClient.key_of i) as [t|].
      - exact (proj2 (run_writes_statuses t ws1 Hrw1)).
      - subst ws1. constructor. }
    intros k. destruct (decide (k = RedisClient.key_of i)) as [-> | Hne].
    + rewrite (timeline_own_key _ _ _ _ Habs).
      destruct (redis_db w !! RedisClient.key_of i) as [t|] eqn:Hk.
      * apply run_writes_one_directional; [|exact Hrw1].
        apply negb_true_iff.
        apply (proj1 (records_pass_spec _ _ _) Hready i t); [now left | exact Hk].
      * subst ws1. reflexivity.
    + rewrite (timeline_other_key _ (redis_db w1) _ _ _ _ Hne (Hother k Hne)).
      apply Htl2.
Qed.

(** C2, as the code has it.  Over every sequence of processor runs in
    which no task id is processed twice and no record to be processed is
    already terminal, the statuses each key goes through (the stored one,
    then the written ones) are one-directional: once a terminal status is
    reached every later status is that same one; and no run writes
    PENDING. *)
Theorem status_one_directional_without_duplicates (env : Env)
    (ids : list string) (w : World) :
  NoDup ids ->
  not_terminal_yet (redis_db w) ids = true ->
  exists w' ws,
    serve (map Process ids) env w = (Ret tt, w')
    /\ writes w' = writes w ++ ws
    /\ Forall (fun kd => status kd.2 <> PENDING) ws
    /\ forall k, one_directional (timeline (redis_db w) ws k) = true.
Proof.
  intros Hnd Hready.
  destruct (serve_runs_timeline env ids w Hnd Hready)
    as (w' & ws & Heq & Hw & _ & _ & Hnp & Htl).
  exists w', ws. auto.
Qed.

Lemma status_one_directional_without_duplicates_witness :
  let w := (Api.submit_task Fixture.bell_request Fixture.calm Fixture.fresh).2 in
  NoDup ["task-0"]
  /\ not_terminal_yet (redis_db w) ["task-0"] = true
  /\ exists w' ws,
       serve (map Process ["task-0"]) Fixture.calm w = (Ret tt, w')
       /\ writes w' = writes w ++ ws
       /\ Forall (fun kd => status kd.2 <> PENDING) ws
       /\ forall k, one_directional (timeline (redis_db w) ws k) = true.
Proof.
  cbv zeta. split; [apply NoDup_singleton|]. split; [vm_compute; reflexivity|].
  apply (status_one_directional_without_duplicates Fixture.calm ["task-0"]).
  - apply NoDup_singleton.
  - vm_compute. reflexivity.
Defined.

(** C2 as stated fails.  A task is submitted, processed to COMPLETED, and
    its notification is processed a second time: the record goes back to
    PROCESSING; if Redis is lost right after that write, it stays there. *)
Lemma duplicate_notification_resets_status :
  let ops := [Submit Fixture.bell_request; Process "task-0"; Process "task-0"] in
  timeline ∅ (writes (serve ops Fixture.calm Fixture.fresh).2) "task:task-0" =
    [PENDING; PROCESSING; COMPLETED; PROCESSING; COMPLETED]
  /\ one_directional
       (timeline ∅ (writes (serve ops Fixture.calm Fixture.fresh).2) "task:task-0") =
     false
  /\ status <$>
       redis_db (serve [Submit Fixture.bell_request; Process "task-0"]
                   (Fixture.redis_lost_from 6) Fixture.fresh).2 !! "task:task-0" =
     Some COMPLETED
  /\ status <$>
       redis_db (serve ops (Fixture.redis_lost_from 6) Fixture.fresh).2
         !! "task:task-0" =
     Some PROCESSING.
Proof. cbv zeta. repeat split; vm_compute; reflexivity. Qed.

Lemma persisted_records_consistent_witness :
  let ops := [Submit Fixture.bell_request; Process "task-0"] in
  NoDup (processed ops)
  /\ not_processed_yet (redis_db Fixture.fresh) (processed ops) = true
  /\ exists w' ws,
       serve ops Fixture.calm Fixture.fresh = (Ret tt, w')
       /\ writes w' = writes Fixture.fresh ++ ws
       /\ Forall (fun kd =>
                    consistent kd.2
                    /\ ~ (is_Some (result kd.2) /\ is_Some (error kd.2))) ws.
Proof.
  cbv zeta. split; [apply NoDup_singleton|]. split; [reflexivity|].
  apply (persisted_records_consistent Fixture.calm
           [Submit Fixture.bell_request; Process "task-0"] Fixture.fresh).
  - apply NoDup_singleton.
  - reflexivity.
Defined.

(** C5 as stated fails.  A task is submitted and completed, its
    notification is processed a second time and the simulator fails on that
    run: the run first stores the record as PROCESSING with the old result
    still in it, then as FAILED with both the result and the error. *)
Lemma duplicate_run_pairs_result_with_error :
  let ops := [Submit Fixture.bell_request; Process "task-0"; Process "task-0"] in
  let ws := writes (serve ops Fixture.flaky Fixture.fresh).2 in
  map (fun kd => (status kd.2, result kd.2, error kd.2)) ws =
    [(PENDING, None, None);
     (PROCESSING, None, None);
     (COMPLETED, Some Fixture.bell_counts, None);
     (PROCESSING, Some Fixture.bell_counts, None);
     (FAILED, Some Fixture.bell_counts, Some "Simulation failed")]
  /\ ~ Forall (fun kd => consistent kd.2) ws
  /\ Exists (fun kd => is_Some (result kd.2) /\ is_Some (error kd.2)) ws.
Proof.
  cbv zeta. remember (writes _) as ws eqn:Hws. vm_compute in Hws. subst ws.
  split; [reflexivity|]. split.
  - intros Hall. do 4 apply Forall_inv_tail in Hall. apply Forall_inv in Hall.
    destruct Hall as [Hres _]. simpl in Hres.
    assert (Hcompleted : FAILED = COMPLETED) by (apply Hres; eauto).
    discriminate Hcompleted.
  - do 4 apply Exists_cons_tl. apply Exists_cons_hd.
    split; eexists; reflexivity.
Qed.

(** * Further properties of the clients, the API and the worker *)

Ltac py_unfold_all :=
  unfold Api.health_check, Api.lifespan_startup, Api.lifespan_shutdown,
    Worker.maintain_turn, Worker.subscribe_to_tasks,
    Worker.connect_to_services,
    NATSClient.subscribe, NATSClient.disconnect,
    RedisClient.ping, RedisClient.disconnect,
    RedisClient.PING, RedisClient.CLOSE, NATSClient.SUB,
    Asyncio.await, Asyncio.sleep in *;
  py_unfold.

Ltac py_run_all := py_unfold_all; simpl; repeat py_case.

(** ** Redis client *)

(** X1.  A document stored with [set_task] is what [get_task] returns for
    that id, and the documents of the other ids are as they were. *)
Theorem set_task_get_task_round_trip (env : Env) (w : World)
    (task_id : string) (d : TaskData) :
  redis_fault env (redis_calls w) = None ->
  redis_fault env (S (redis_calls w)) = None ->
  exists w',
    (RedisClient.set_task task_id d ;;; RedisClient.get_task task_id) env w =
      (Ret (Some d), w')
    /\ forall other, other <> task_id ->
         redis_db w' !! RedisClient.key_of other =
           redis_db w !! RedisClient.key_of other.
Proof.
  intros H0 H1. py_run; eexists; (split; [reflexivity|]); simpl;
    intros other Hne; apply lookup_insert_ne;
    intros Hk; apply key_of_inj in Hk; congruence.
Qed.

Lemma set_task_get_task_round_trip_witness :
  exists w',
    (RedisClient.set_task "t1"
       (mkTask "t1" Fixture.bell_qasm 100 PENDING None None 0 None) ;;;
     RedisClient.get_task "t1") Fixture.calm Fixture.fresh =
      (Ret (Some (mkTask "t1" Fixture.bell_qasm 100 PENDING None None 0 None)), w')
    /\ forall other, other <> "t1" ->
         redis_db w' !! RedisClient.key_of other =
           redis_db Fixture.fresh !! RedisClient.key_of other.
Proof.
  apply (set_task_get_task_round_trip Fixture.calm Fixture.fresh "t1");
    reflexivity.
Defined.

(** [ping] never raises: it answers [True] when the PING command goes
    through and [False] when it fails; it opens the client handle on the
    way and leaves the stored documents alone. *)
Theorem ping_never_raises (env : Env) (w : World) :
  exists w',
    RedisClient.ping env w =
      (Ret (bool_decide (redis_fault env (redis_calls w) = None)), w')
    /\ redis_handle w' = true
    /\ redis_db w' = redis_db w.
Proof.
  py_run_all; eexists; (split; [reflexivity|]); simpl; auto.
Qed.

(** X3.  [RedisClient.disconnect] never raises and leaves the handle
    closed even when closing fails; a second [disconnect] sends nothing and
    changes nothing. *)
Theorem redis_disconnect_idempotent (env : Env) (w : World) :
  exists w',
    RedisClient.disconnect env w = (Ret tt, w')
    /\ redis_handle w' = false
    /\ redis_db w' = redis_db w
    /\ RedisClient.disconnect env w' = (Ret tt, w').
Proof.
  py_run_all; eexists; (split; [reflexivity|]); simpl; auto.
  destruct w; simpl in *; subst; auto.
Qed.

(** X4.  After a [disconnect], the next [get_task] reopens the client by
    itself and reads what was stored before. *)
Theorem get_task_reconnects_lazily (env : Env) (w : World) (task_id : string) :
  (forall n, redis_fault env n = None) ->
  exists w',
    (RedisClient.disconnect ;;; RedisClient.get_task task_id) env w =
      (Ret (redis_db w !! RedisClient.key_of task_id), w')
    /\ redis_handle w' = true.
Proof.
  intros Hok. py_unfold_all. simpl.
  destruct (redis_handle w) eqn:Hh; simpl;
    repeat (progress (rewrite ?Hh, ?Hok; simpl));
    destruct (redis_db w !! RedisClient.key_of task_id);
    eexists; split; reflexivity.
Qed.

Lemma get_task_reconnects_lazily_witness :
  exists w',
    (RedisClient.disconnect ;;; RedisClient.get_task "t1")
      Fixture.calm Fixture.fresh =
      (Ret (redis_db Fixture.fresh !! RedisClient.key_of "t1"), w')
    /\ redis_handle w' = true.
Proof.
  apply (get_task_reconnects_lazily Fixture.calm Fixture.fresh "t1").
  intros n. reflexivity.
Defined.

(** ** NATS client *)

(** X5.  [publish] never raises and hands the bus at most one message, the
    JSON text of the payload under the given subject; it stores nothing. *)
Theorem publish_never_raises (env : Env) (w : World) (subject : string)
    (payload : json) :
  exists w',
    NATSClient.publish subject payload env w = (Ret tt, w')
    /\ (published w' = published w
        \/ published w' = published w ++ [(subject, json_dumps env payload)])
    /\ redis_db w' = redis_db w.
Proof.
  py_unfold. simpl. destruct (nc_connected w) eqn:Hc; simpl;
    repeat (progress (rewrite ?Hc; simpl)); repeat py_case;
    eexists; (split; [reflexivity|]); simpl; auto.
Qed.

(** X6.  [publish] on a client that is not connected connects first: when
    the connection attempt and the send both go through, the message is
    handed to the bus and the client is connected afterwards; when the
    connection attempt fails, nothing is sent and no second call is made. *)
Theorem publish_connects_first (env : Env) (w : World) (subject : string)
    (payload : json) :
  nc_connected w = false ->
  exists w',
    NATSClient.publish subject payload env w = (Ret tt, w')
    /\ match nats_fault env (nats_calls w), nats_fault env (S (nats_calls w)) with
       | None, None =>
           published w' = published w ++ [(subject, json_dumps env payload)]
           /\ nc_connected w' = true
       | None, Some _ =>
           published w' = published w /\ nc_connected w' = true
       | Some _, _ =>
           published w' = published w /\ nc_connected w' = false
           /\ nats_calls w' = S (nats_calls w)
       end.
Proof.
  intros Hc. py_unfold. simpl. repeat (progress (rewrite ?Hc; simpl)).
  destruct (nats_fault env (nats_calls w)) eqn:H0; simpl;
    repeat (progress (rewrite ?Hc; simpl)).
  - eexists. split; [reflexivity|]. simpl. auto.
  - destruct (nats_fault env (S (nats_calls w))) eqn:H1; simpl;
      eexists; (split; [reflexivity|]); simpl; auto.
Qed.

Lemma publish_connects_first_witness :
  nc_connected (with_nc_connected false Fixture.fresh) = false
  /\ exists w',
       NATSClient.publish "tasks" (Fixture.notification "a") Fixture.calm
         (with_nc_connected false Fixture.fresh) = (Ret tt, w')
       /\ published w' =
            [("tasks", json_dumps Fixture.calm (Fixture.notification "a"))]
       /\ nc_connected w' = true.
Proof.
  split; [reflexivity|].
  destruct (publish_connects_first Fixture.calm
              (with_nc_connected false Fixture.fresh) "tasks"
              (Fixture.notification "a") eq_refl) as (w' & Heq & Hm).
  exists w'. split; [exact Heq | exact Hm].
Defined.

(** ** API service *)

(** X7.  [/health] never fails and always answers "healthy": the two flags
    say whether the bus is connected and whether Redis answered the PING,
    but the status does not depend on them. *)
Theorem health_check_always_healthy (env : Env) (w : World) :
  exists w',
    Api.health_check env w =
      (Ret {| Api.health_status := "healthy";
              Api.health_nats := nc_connected w;
              Api.health_redis :=
                bool_decide (redis_fault env (redis_calls w) = None) |}, w')
    /\ redis_db w' = redis_db w.
Proof.
  py_run_all; eexists; (split; [reflexivity|]); reflexivity.
Qed.

(** X8.  When the Redis read fails, [get_task] answers HTTP 500 with the
    fixed detail "Failed to retrieve task", whatever the Redis error says
    and whether or not the task exists. *)
Theorem get_task_store_failure (env : Env) (w : World) (task_id msg : string) :
  redis_fault env (redis_calls w) = Some msg ->
  (Api.get_task task_id env w).1 =
    Raise (HTTPException 500 "Failed to retrieve task").
Proof.
  intros Hf. py_run; reflexivity.
Qed.

Lemma get_task_store_failure_witness :
  redis_fault (Fixture.redis_lost_from 0) (redis_calls Fixture.fresh) =
    Some "redis: connection lost"
  /\ (Api.get_task "task-0" (Fixture.redis_lost_from 0) Fixture.fresh).1 =
     Raise (HTTPException 500 "Failed to retrieve task").
Proof.
  split; [reflexivity|].
  apply (get_task_store_failure (Fixture.redis_lost_from 0) Fixture.fresh
           "task-0" "redis: connection lost").
  reflexivity.
Defined.

(** X9.  With the bus not connected, [submit_task] stores the task and
    answers as usual but makes no call on the bus at all: it does not try
    to reconnect, nothing is published, and the only effect is the stored
    document. *)
Theorem submit_without_bus_stores_only (env : Env) (w : World)
    (request : QuantumCircuitRequest) :
  nc_connected w = false ->
  redis_fault env (redis_calls w) = None ->
  exists w',
    Api.submit_task request env w =
      (Ret {| task_id := uuid4 env (uuid_calls w); resp_status := "pending" |}, w')
    /\ history w' =
         history w ++ [Stored (submitted_key env w) (submitted env w request)]
    /\ published w' = published w
    /\ nats_calls w' = nats_calls w
    /\ nc_connected w' = false.
Proof.
  intros Hc Hf. unfold submitted_key, submitted.
  py_run; eexists; (split; [reflexivity|]); simpl; auto.
Qed.

Lemma submit_without_bus_stores_only_witness :
  exists w',
    Api.submit_task Fixture.bell_request Fixture.calm
      (with_nc_connected false Fixture.fresh) =
      (Ret {| task_id := uuid4 Fixture.calm 0; resp_status := "pending" |}, w')
    /\ history w' =
         [Stored (submitted_key Fixture.calm (with_nc_connected false Fixture.fresh))
                 (submitted Fixture.calm (with_nc_connected false Fixture.fresh)
                            Fixture.bell_request)]
    /\ published w' = []
    /\ nats_calls w' = 0%nat
    /\ nc_connected w' = false.
Proof.
  apply (submit_without_bus_stores_only Fixture.calm
           (with_nc_connected false Fixture.fresh) Fixture.bell_request);
    reflexivity.
Defined.

(** X10.  What [submit_task] answers is the id under which [get_task]
    finds the task: PENDING, with the circuit and the shots of the request
    and neither result nor error. *)
Theorem submit_then_get_task (env : Env) (w : World)
    (request : QuantumCircuitRequest) :
  redis_fault env (redis_calls w) = None ->
  redis_fault env (S (redis_calls w)) = None ->
  ((r <- Api.submit_task request ;; Api.get_task (task_id r)) env w).1 =
    Ret (Some (mkTask (uuid4 env (uuid_calls w)) (quantum_circuit request)
                      (req_shots request) PENDING None None (clock w) None)).
Proof.
  intros H0 H1. py_run; reflexivity.
Qed.

Lemma submit_then_get_task_witness :
  ((r <- Api.submit_task Fixture.bell_request ;; Api.get_task (task_id r))
     Fixture.calm Fixture.fresh).1 =
    Ret (Some (mkTask "task-0" Fixture.bell_qasm 100 PENDING None None 0 None)).
Proof.
  apply (submit_then_get_task Fixture.calm Fixture.fresh Fixture.bell_request);
    reflexivity.
Defined.

(** ** Task processor *)

Lemma not_elem_of_discard (s : gset string) (x : string) : x ∉ s ∖ {[x]}.
Proof. rewrite elem_of_difference, elem_of_singleton. tauto. Qed.

(** X11.  The good path of [process_task]: the record is there, Redis
    answers, the QASM text loads and the simulator returns counts.  The run
    leaves the record COMPLETED with exactly those counts, stamped with the
    clock, touches no other key and takes its id out of the active set. *)
Theorem process_task_completes (env : Env) (w : World) (task_id : string)
    (t : TaskData) (c : QuantumCircuit) (counts : Counts) :
  redis_db w !! RedisClient.key_of task_id = Some t ->
  redis_fault env (redis_calls w) = None ->
  redis_fault env (S (redis_calls w)) = None ->
  redis_fault env (S (S (redis_calls w))) = None ->
  qasm3_loads env (circuit_qasm t) = Ret c ->
  simulator_run env (engine_calls w) c (shots t) = Ret counts ->
  exists w',
    Worker.process_task task_id env w = (Ret tt, w')
    /\ redis_db w' !! RedisClient.key_of task_id =
         Some (mark_completed counts (clock w) (mark_processing t))
    /\ (forall k, k <> RedisClient.key_of task_id ->
                  redis_db w' !! k = redis_db w !! k)
    /\ task_id ∉ active_tasks w'.
Proof.
  intros Hk H0 H1 H2 Hq Hs. py_run;
    eexists; (split; [reflexivity|]); simpl;
    (split; [apply lookup_insert_eq|]);
    (split; [intros k Hne; rewrite !lookup_insert_ne by congruence; reflexivity|]);
    rewrite active_add_discard; apply not_elem_of_discard.
Qed.

Lemma process_task_completes_witness :
  let w := (Api.submit_task Fixture.bell_request Fixture.calm Fixture.fresh).2 in
  exists w',
    Worker.process_task "task-0" Fixture.calm w = (Ret tt, w')
    /\ redis_db w' !! RedisClient.key_of "task-0" =
         Some (mark_completed Fixture.bell_counts (clock w)
                 (mark_processing
                    (mkTask "task-0" Fixture.bell_qasm 100 PENDING None None 0 None)))
    /\ (forall k, k <> RedisClient.key_of "task-0" ->
                  redis_db w' !! k = redis_db w !! k)
    /\ "task-0" ∉ active_tasks w'.
Proof.
  cbv zeta.
  apply (process_task_completes Fixture.calm
           (Api.submit_task Fixture.bell_request Fixture.calm Fixture.fresh).2
           "task-0"
           (mkTask "task-0" Fixture.bell_qasm 100 PENDING None None 0 None)
           Fixture.bell Fixture.bell_counts);
    vm_compute; reflexivity.
Defined.

(** X12.  A circuit text the QASM parser rejects never reaches the
    simulator: the run stores the record as FAILED with the parser's
    message as error and no result, and returns normally. *)
Theorem process_task_rejects_bad_qasm (env : Env) (w : World)
    (task_id : string) (t : TaskData) (e : exn) :
  redis_db w !! RedisClient.key_of task_id = Some t ->
  (forall n, redis_fault env n = None) ->
  qasm3_loads env (circuit_qasm t) = Raise e ->
  exists w',
    Worker.process_task task_id env w = (Ret tt, w')
    /\ redis_db w' !! RedisClient.key_of task_id =
         Some (mark_failed (str e) (clock w) (mark_processing t))
    /\ engine_calls w' = engine_calls w.
Proof.
  intros Hk Hok Hq. py_unfold. simpl.
  repeat (progress (rewrite ?Hok, ?Hk, ?Hq, ?lookup_insert_eq; simpl)).
  destruct (redis_handle w); simpl;
    repeat (progress (rewrite ?Hok, ?Hk, ?Hq, ?lookup_insert_eq; simpl));
    eexists; (split; [reflexivity|]); simpl;
    (split; [apply lookup_insert_eq | reflexivity]).
Qed.

Lemma process_task_rejects_bad_qasm_witness :
  let t := mkTask "t1" "not qasm" 100 PENDING None None 0 None in
  let w := (RedisClient.set_task "t1" t Fixture.calm Fixture.fresh).2 in
  exists w',
    Worker.process_task "t1" Fixture.calm w = (Ret tt, w')
    /\ redis_db w' !! RedisClient.key_of "t1" =
         Some (mark_failed "QASM3ImporterError" (clock w) (mark_processing t))
    /\ engine_calls w' = engine_calls w.
Proof.
  cbv zeta.
  apply (process_task_rejects_bad_qasm Fixture.calm
           (RedisClient.set_task "t1"
              (mkTask "t1" "not qasm" 100 PENDING None None 0 None)
              Fixture.calm Fixture.fresh).2
           "t1" (mkTask "t1" "not qasm" 100 PENDING None None 0 None)
           (Exception "QASM3ImporterError")).
  - vm_compute. reflexivity.
  - intros n. reflexivity.
  - reflexivity.
Defined.

(** X13.  When the simulator fails, the run stores the record as FAILED
    with the simulator's message as error, and returns normally: the
    failure of one task does not leave the processor. *)
Theorem process_task_records_engine_failure (env : Env) (w : World)
    (task_id : string) (t : TaskData) (c : QuantumCircuit) (e : exn) :
  redis_db w !! RedisClient.key_of task_id = Some t ->
  (forall n, redis_fault env n = None) ->
  qasm3_loads env (circuit_qasm t) = Ret c ->
  simulator_run env (engine_calls w) c (shots t) = Raise e ->
  exists w',
    Worker.process_task task_id env w = (Ret tt, w')
    /\ redis_db w' !! RedisClient.key_of task_id =
         Some (mark_failed (str e) (clock w) (mark_processing t))
    /\ task_id ∉ active_tasks w'.
Proof.
  intros Hk Hok Hq Hs. py_unfold. simpl.
  repeat (progress (rewrite ?Hok, ?Hk, ?Hq, ?Hs, ?lookup_insert_eq; simpl)).
  destruct (redis_handle w); simpl;
    repeat (progress (rewrite ?Hok, ?Hk, ?Hq, ?Hs, ?lookup_insert_eq; simpl));
    eexists; (split; [reflexivity|]); simpl;
    (split; [apply lookup_insert_eq |]);
    rewrite active_add_discard; apply not_elem_of_discard.
Qed.

Lemma process_task_records_engine_failure_witness :
  let t := mkTask "task-0" Fixture.bell_qasm 100 PENDING None None 0 None in
  let w := (Api.submit_task Fixture.bell_request Fixture.engine_down
              Fixture.fresh).2 in
  exists w',
    Worker.process_task "task-0" Fixture.engine_down w = (Ret tt, w')
    /\ redis_db w' !! RedisClient.key_of "task-0" =
         Some (mark_failed "Simulation failed" (clock w) (mark_processing t))
    /\ "task-0" ∉ active_tasks w'.
Proof.
  cbv zeta.
  apply (process_task_records_engine_failure Fixture.engine_down
           (Api.submit_task Fixture.bell_request Fixture.engine_down
              Fixture.fresh).2
           "task-0"
           (mkTask "task-0" Fixture.bell_qasm 100 PENDING None None 0 None)
           Fixture.bell (Exception "Simulation failed")).
  - vm_compute. reflexivity.
  - intros n. reflexivity.
  - reflexivity.
  - reflexivity.
Defined.

(** X14.  Once PROCESSING is stored, losing Redis leaves the task there:
    when the two Redis commands after that write fail, the run returns
    normally and the record stays PROCESSING, whatever the parser and the
    simulator did. *)
Theorem process_task_can_strand_processing (env : Env) (w : World)
    (task_id : string) (t : TaskData) (m2 m3 : string) :
  redis_db w !! RedisClient.key_of task_id = Some t ->
  redis_fault env (redis_calls w) = None ->
  redis_fault env (S (redis_calls w)) = None ->
  redis_fault env (S (S (redis_calls w))) = Some m2 ->
  redis_fault env (S (S (S (redis_calls w)))) = Some m3 ->
  exists w',
    Worker.process_task task_id env w = (Ret tt, w')
    /\ redis_db w' !! RedisClient.key_of task_id = Some (mark_processing t)
    /\ task_id ∉ active_tasks w'.
Proof.
  intros Hk H0 H1 H2 H3. py_run;
    eexists; (split; [reflexivity|]); simpl;
    (split; [apply lookup_insert_eq |]);
    rewrite active_add_discard; apply not_elem_of_discard.
Qed.

Lemma process_task_can_strand_processing_witness :
  let t := mkTask "task-0" Fixture.bell_qasm 100 PENDING None None 0 None in
  let w := (Api.submit_task Fixture.bell_request (Fixture.redis_lost_from 3)
              Fixture.fresh).2 in
  exists w',
    Worker.process_task "task-0" (Fixture.redis_lost_from 3) w = (Ret tt, w')
    /\ redis_db w' !! RedisClient.key_of "task-0" = Some (mark_processing t)
    /\ "task-0" ∉ active_tasks w'.
Proof.
  cbv zeta.
  apply (process_task_can_strand_processing (Fixture.redis_lost_from 3)
           (Api.submit_task Fixture.bell_request (Fixture.redis_lost_from 3)
              Fixture.fresh).2
           "task-0"
           (mkTask "task-0" Fixture.bell_qasm 100 PENDING None None 0 None)
           "redis: connection lost" "redis: connection lost");
    vm_compute; reflexivity.
Defined.

(** Every path through [process_task]: it returns normally, the bus state
    is as before and the active set has lost the id and nothing else. *)
Lemma process_task_frame (env : Env) (w : World) (task_id : string) :
  exists w',
    Worker.process_task task_id env w = (Ret tt, w')
    /\ active_tasks w' = active_tasks w ∖ {[task_id]}
    /\ published w' = published w
    /\ nc_connected w' = nc_connected w
    /\ nats_calls w' = nats_calls w
    /\ uuid_calls w' = uuid_calls w.
Proof.
  destruct (redis_db w !! RedisClient.key_of task_id) as [t|] eqn:Hk;
    py_run; eexists; (split; [reflexivity|]); simpl;
    (split; [apply active_add_discard|]); auto.
Qed.

(** X15.  [process_task] never raises, and on every exit path (record
    missing, Redis failing, parser or simulator failing, success) the id is
    out of the active set afterwards while the other ids in it stay. *)
Theorem process_task_always_cleans_up (env : Env) (w : World)
    (task_id : string) :
  (Worker.process_task task_id env w).1 = Ret tt
  /\ active_tasks (Worker.process_task task_id env w).2 =
       active_tasks w ∖ {[task_id]}.
Proof.
  destruct (process_task_frame env w task_id) as (w' & -> & Ha & _).
  split; [reflexivity | exact Ha].
Qed.

(** X16.  The processor never talks to the bus: no run publishes anything,
    makes a network call on the NATS connection or changes its state, so a
    finished task is announced to nobody. *)
Theorem process_task_never_uses_bus (env : Env) (w : World) (task_id : string) :
  published (Worker.process_task task_id env w).2 = published w
  /\ nats_calls (Worker.process_task task_id env w).2 = nats_calls w
  /\ nc_connected (Worker.process_task task_id env w).2 = nc_connected w.
Proof.
  destruct (process_task_frame env w task_id) as (w' & -> & _ & Hp & Hc & Hn & _).
  auto.
Qed.

(** X17.  Whatever a run does to a record, it keeps its id, circuit, shots
    and creation time: the record found under the key afterwards agrees
    with the one before on these four fields. *)
Theorem process_task_keeps_identity (env : Env) (w : World) (task_id : string)
    (t : TaskData) :
  redis_db w !! RedisClient.key_of task_id = Some t ->
  exists t',
    redis_db (Worker.process_task task_id env w).2
      !! RedisClient.key_of task_id = Some t'
    /\ id t' = id t
    /\ circuit_qasm t' = circuit_qasm t
    /\ shots t' = shots t
    /\ created_at t' = created_at t.
Proof.
  intros Hk.
  destruct (process_task_effects env w task_id) as (w' & ws & -> & _ & Hdb & Hrw).
  rewrite Hk in Hrw. simpl. rewrite Hdb.
  destruct Hrw; simpl; rewrite ?lookup_insert_eq; eauto 10.
Qed.

Lemma process_task_keeps_identity_witness :
  let w := (Api.submit_task Fixture.bell_request Fixture.calm Fixture.fresh).2 in
  let t := mkTask "task-0" Fixture.bell_qasm 100 PENDING None None 0 None in
  exists t',
    redis_db (Worker.process_task "task-0" Fixture.calm w).2
      !! RedisClient.key_of "task-0" = Some t'
    /\ id t' = id t
    /\ circuit_qasm t' = circuit_qasm t
    /\ shots t' = shots t
    /\ created_at t' = created_at t.
Proof.
  cbv zeta.
  apply (process_task_keeps_identity Fixture.calm
           (Api.submit_task Fixture.bell_request Fixture.calm Fixture.fresh).2
           "task-0").
  vm_compute. reflexivity.
Defined.

(** X18.  End to end: a submission, the processor run for the id it
    answered, then a retrieval.  With Redis answering, the circuit loading
    and the simulator returning counts, the retrieval shows the task
    COMPLETED with those counts and the shots and circuit of the request. *)
Theorem submit_process_get (env : Env) (w : World)
    (request : QuantumCircuitRequest) (c : QuantumCircuit) (counts : Counts) :
  (forall n, redis_fault env n = None) ->
  qasm3_loads env (quantum_circuit request) = Ret c ->
  simulator_run env (engine_calls w) c (req_shots request) = Ret counts ->
  ((r <- Api.submit_task request ;;
    Worker.process_task (task_id r) ;;;
    Api.get_task (task_id r)) env w).1 =
    Ret (Some (mkTask (uuid4 env (uuid_calls w)) (quantum_circuit request)
                      (req_shots request) COMPLETED (Some counts) None
                      (clock w) (Some (clock w)))).
Proof.
  intros Hok Hq Hs. py_unfold. simpl.
  destruct (redis_handle w), (nc_connected w); simpl;
    repeat first
      [ progress (rewrite ?Hok, ?Hq, ?Hs, ?lookup_insert_eq; simpl)
      | match goal with
        | |- context [match nats_fault ?e ?n with _ => _ end] =>
            destruct (nats_fault e n) eqn:?; simpl
        end ];
    reflexivity.
Qed.

Lemma submit_process_get_witness :
  ((r <- Api.submit_task Fixture.bell_request ;;
    Worker.process_task (task_id r) ;;;
    Api.get_task (task_id r)) Fixture.calm Fixture.fresh).1 =
    Ret (Some (mkTask "task-0" Fixture.bell_qasm 100 COMPLETED
                      (Some Fixture.bell_counts) None 0 (Some 0))).
Proof.
  apply (submit_process_get Fixture.calm Fixture.fresh Fixture.bell_request
           Fixture.bell Fixture.bell_counts).
  - intros n. reflexivity.
  - reflexivity.
  - reflexivity.
Defined.

(** ** Dispatch *)

(** X19.  With only decodable traffic the limiter holds: after any
    sequence of notifications whose payload is a JSON object and of task
    completions, at most [N] coroutines are in flight and [sem] is at most
    [N]. *)
Theorem dispatch_respects_capacity (env : Env) (N : nat)
    (evs : list Worker.Event) (l : Worker.Loop) :
  Forall (fun ev =>
            match ev with
            | Worker.Deliver data =>
                exists fields, json_loads env data = Ret (JObj fields)
            | Worker.Done _ => True
            end) evs ->
  Worker.run env (Worker.start N) evs = Some l ->
  (length (Worker.spawned l) <= N)%nat
  /\ (Worker.sem_value l <= N)%nat
  /\ (Worker.sem_waiters l <> [] -> length (Worker.spawned l) = N).
Proof.
  intros Hev Hrun.
  assert (Hb : balanced N l).
  { generalize (balanced_start N). revert Hrun.
    generalize (Worker.start N) as l0.
    induction Hev as [|ev evs Hhd _ IH]; intros l0 Hrun Hb0;
      cbn [Worker.run] in Hrun.
    - congruence.
    - destruct ev as [data | i]; unfold Worker.step in Hrun.
      + destruct Hhd as [fields Hj].
        destruct (handle_task_message_object env data l0 fields Hj)
          as [Heq | [t Heq]]; rewrite Heq in Hrun;
          eauto using balanced_acquire.
      + destruct (Worker.task_done i l0) as [l1|] eqn:Hd; [|discriminate].
        eauto using balanced_done. }
  destruct Hb as [Hsum Hw]. repeat split; try lia.
  intros Hne. destruct Hw as [Hw | Hv]; [contradiction | lia].
Qed.

Lemma dispatch_respects_capacity_witness :
  let evs := [Worker.Deliver (json_dumps Fixture.calm (Fixture.notification "a"));
              Worker.Deliver (json_dumps Fixture.calm (Fixture.notification "b"));
              Worker.Done 0] in
  Worker.run Fixture.calm (Worker.start 1) evs =
    Some (Worker.mkLoop 0 [] [JStr "b"])
  /\ (length (Worker.spawned (Worker.mkLoop 0 [] [JStr "b"])) <= 1)%nat
  /\ (Worker.sem_value (Worker.mkLoop 0 [] [JStr "b"]) <= 1)%nat
  /\ (Worker.sem_waiters (Worker.mkLoop 0 [] [JStr "b"]) <> [] ->
      length (Worker.spawned (Worker.mkLoop 0 [] [JStr "b"])) = 1%nat).
Proof.
  cbv zeta. split; [reflexivity|].
  apply (dispatch_respects_capacity Fixture.calm 1
           [Worker.Deliver (json_dumps Fixture.calm (Fixture.notification "a"));
            Worker.Deliver (json_dumps Fixture.calm (Fixture.notification "b"));
            Worker.Done 0]).
  - repeat constructor; eexists; reflexivity.
  - reflexivity.
Defined.

(** X20.  A notification whose JSON object has no [task_id], or a falsy
    one (null, empty string, 0, false, empty list or object), is dropped:
    no slot is taken or released and nothing is queued or started. *)
Theorem message_without_task_id_is_dropped (env : Env) (data : string)
    (fields : list (string * json)) (l : Worker.Loop) :
  json_loads env data = Ret (JObj fields) ->
  match CircuitUtils.dict_lookup "task_id" fields with
  | Some v => Worker.truthy v = false
  | None => True
  end ->
  Worker.handle_task_message env data l = l.
Proof.
  intros Hj Hv. unfold Worker.handle_task_message, Worker.read_task_id.
  rewrite Hj. destruct (CircuitUtils.dict_lookup "task_id" fields) as [v|].
  - rewrite Hv. reflexivity.
  - reflexivity.
Qed.

Lemma message_without_task_id_is_dropped_witness :
  Worker.handle_task_message Fixture.odd_traffic
    (json_dumps Fixture.odd_traffic Fixture.no_task_id) (Worker.start 2) =
    Worker.start 2
  /\ Worker.handle_task_message Fixture.odd_traffic
       (json_dumps Fixture.odd_traffic Fixture.null_task_id) (Worker.start 2) =
     Worker.start 2.
Proof.
  split.
  - apply (message_without_task_id_is_dropped Fixture.odd_traffic _
             [("job", JStr "a")]); reflexivity.
  - apply (message_without_task_id_is_dropped Fixture.odd_traffic _
             [("task_id", JNull)]); reflexivity.
Defined.

(** X21.  Backpressure is first come, first served.  While no slot is free
    a new notification queues behind the ones already waiting and starts
    nothing; when a task in flight finishes, the oldest waiter takes the
    slot, is started, and [sem] stays at its value. *)
Theorem waiters_are_admitted_in_order (l : Worker.Loop) (task_id oldest x : json)
    (rest : list json) (i : nat) :
  Worker.sem_value l = 0%nat ->
  Worker.sem_waiters l = oldest :: rest ->
  Worker.spawned l !! i = Some x ->
  Worker.acquire_then_spawn task_id l =
    Worker.mkLoop 0 (oldest :: rest ++ [task_id]) (Worker.spawned l)
  /\ Worker.task_done i (Worker.acquire_then_spawn task_id l) =
       Some (Worker.mkLoop 0 (rest ++ [task_id])
               (delete i (Worker.spawned l) ++ [oldest])).
Proof.
  intros Hv Hw Hi. destruct l as [v ws sp]; simpl in *; subst.
  unfold Worker.acquire_then_spawn, Worker.locked; simpl.
  split; [reflexivity|].
  unfold Worker.task_done; simpl. rewrite Hi. reflexivity.
Qed.

Lemma waiters_are_admitted_in_order_witness :
  Worker.acquire_then_spawn (JStr "c")
    (Worker.mkLoop 0 [JStr "b"] [JStr "a"]) =
    Worker.mkLoop 0 [JStr "b"; JStr "c"] [JStr "a"]
  /\ Worker.task_done 0
       (Worker.acquire_then_spawn (JStr "c")
          (Worker.mkLoop 0 [JStr "b"] [JStr "a"])) =
     Some (Worker.mkLoop 0 [JStr "c"] [JStr "b"]).
Proof.
  apply (waiters_are_admitted_in_order
           (Worker.mkLoop 0 [JStr "b"] [JStr "a"]) (JStr "c") (JStr "b")
           (JStr "a") [] 0); reflexivity.
Defined.

(** ** Shutdown *)

(** X22.  [shutdown] never raises, whatever fails while disconnecting: it
    always leaves the Redis handle closed and the stored documents as they
    were, and with an empty active set it does not wait at all. *)
Theorem shutdown_never_raises (env : Env) (w : World) :
  exists w',
    Worker.shutdown env w = (Ret tt, w')
    /\ redis_handle w' = false
    /\ redis_db w' = redis_db w
    /\ active_tasks w' = active_tasks w
    /\ clock w' =
         clock w + (if bool_decide (active_tasks w = ∅) then 0 else 100).
Proof.
  unfold Worker.shutdown. unfold bind at 1. unfold get_world. cbn beta iota.
  destruct (bool_decide (active_tasks w = ∅)) eqn:Hempty.
  - unfold NATSClient.disconnect, RedisClient.disconnect, RedisClient.CLOSE.
    py_run; eexists; (split; [reflexivity|]); simpl;
      (split; [first [reflexivity | assumption]|]);
      (split; [reflexivity|]); (split; [reflexivity|]); lia.
  - destruct (size (active_tasks w)) as [|n] eqn:Hsz.
    { apply size_empty_inv in Hsz. apply leibniz_equiv in Hsz.
      apply bool_decide_eq_false in Hempty. contradiction. }
    rewrite gather_sleeps.
    unfold NATSClient.disconnect, RedisClient.disconnect, RedisClient.CLOSE,
      Asyncio.wait_for, Asyncio.await, Worker.shutdown_timeout.
    py_run; eexists; (split; [reflexivity|]); simpl; auto.
Qed.

(** ** Connection supervisor *)

Lemma maintain_idle (env : Env) (turns : nat) :
  forall w,
    nc_connected w = true ->
    exists w',
      Worker.maintain_service_connections turns env w = (Ret tt, w')
      /\ nats_calls w' = nats_calls w
      /\ redis_calls w' = redis_calls w
      /\ history w' = history w
      /\ nc_connected w' = true
      /\ redis_db w' = redis_db w
      /\ clock w' = clock w + 5000 * Z.of_nat turns.
Proof.
  induction turns as [|n IH]; intros w Hc.
  - exists w. simpl. repeat split; try assumption. lia.
  - cbn [Worker.maintain_service_connections]. unfold bind at 1.
    assert (Hturn : Worker.maintain_turn env w =
                      (Ret tt, with_clock (clock w + 5000) w)).
    { py_unfold_all. simpl. repeat (progress (rewrite ?Hc; simpl)).
      reflexivity. }
    rewrite Hturn.
    destruct (IH (with_clock (clock w + 5000) w) Hc)
      as (w' & Heq & H1 & H2 & H3 & H4 & H5 & H6).
    exists w'. split; [exact Heq|]. simpl in *.
    repeat split; try assumption. lia.
Qed.

(** X23.  While the bus connection is up the supervisor does nothing but
    sleep: over any number of turns it makes no NATS or Redis call, and
    only the clock moves, by five seconds a turn. *)
Theorem supervisor_idle_while_connected (env : Env) (turns : nat) (w : World) :
  nc_connected w = true ->
  exists w',
    Worker.maintain_service_connections turns env w = (Ret tt, w')
    /\ nats_calls w' = nats_calls w
    /\ redis_calls w' = redis_calls w
    /\ history w' = history w
    /\ clock w' = clock w + 5000 * Z.of_nat turns.
Proof.
  intros Hc.
  destruct (maintain_idle env turns w Hc) as (w' & Heq & H1 & H2 & H3 & _ & _ & H6).
  exists w'. auto.
Qed.

Lemma supervisor_idle_while_connected_witness :
  exists w',
    Worker.maintain_service_connections 3 Fixture.calm Fixture.fresh = (Ret tt, w')
    /\ nats_calls w' = nats_calls Fixture.fresh
    /\ redis_calls w' = redis_calls Fixture.fresh
    /\ history w' = history Fixture.fresh
    /\ clock w' = clock Fixture.fresh + 5000 * Z.of_nat 3.
Proof.
  apply (supervisor_idle_while_connected Fixture.calm 3 Fixture.fresh).
  reflexivity.
Defined.

(** X24.  A subscription that fails at start-up is never made up for.  The
    worker starts disconnected, connects, and its [subscribe] call fails:
    [main] goes on, and however long the supervisor runs it makes no
    further call on the bus, since it only subscribes after a reconnect. *)
Theorem failed_subscription_is_not_retried (env : Env) (w : World)
    (turns : nat) (msg : string) :
  nc_connected w = false ->
  nats_fault env (nats_calls w) = None ->
  nats_fault env (S (nats_calls w)) = Some msg ->
  exists w',
    Worker.main turns env w = (Ret tt, w')
    /\ nc_connected w' = true
    /\ nats_calls w' = S (S (nats_calls w))
    /\ history w' = history w ++ [BusCall; BusCall].
Proof.
  intros Hc H0 H1. unfold Worker.main.
  set (w1 := with_redis_handle true
               (with_history ((history w ++ [BusCall]) ++ [BusCall])
                  (with_nats_calls (S (S (nats_calls w)))
                     (with_nc_connected true w)))).
  assert (Hprefix :
            (Worker.connect_to_services ;;;
             c <- NATSClient.is_connected ;;
             (if c then Worker.subscribe_to_tasks else ret tt)) env w =
              (Ret tt, w1)).
  { subst w1. py_unfold_all. simpl.
    repeat (progress (rewrite ?Hc, ?H0, ?H1; simpl)).
    destruct (redis_handle w) eqn:Hh; simpl;
      repeat (progress (rewrite ?Hc, ?H0, ?H1; simpl)); reflexivity. }
  destruct (maintain_idle env turns w1 eq_refl)
    as (w' & Heq & Hn & _ & Hh & Hconn & _).
  exists w'. split.
  - transitivity
      (((Worker.connect_to_services ;;;
         c <- NATSClient.is_connected ;;
         (if c then Worker.subscribe_to_tasks else ret tt)) ;;;
        Worker.maintain_service_connections turns) env w).
    + unfold bind.
      destruct (Worker.connect_to_services env w) as [[u|e] w0]; [|reflexivity].
      destruct (NATSClient.is_connected env w0) as [[c|e] w0']; reflexivity.
    + unfold bind at 1. rewrite Hprefix. exact Heq.
  - rewrite Hconn, Hn, Hh. subst w1. simpl. rewrite <- app_assoc. auto.
Qed.

Lemma failed_subscription_is_not_retried_witness :
  exists w',
    Worker.main 10 Fixture.second_bus_call_fails
      (with_nc_connected false Fixture.fresh) = (Ret tt, w')
    /\ nc_connected w' = true
    /\ nats_calls w' = 2%nat
    /\ history w' = [BusCall; BusCall].
Proof.
  apply (failed_subscription_is_not_retried Fixture.second_bus_call_fails
           (with_nc_connected false Fixture.fresh) 10 "nats: timeout");
    reflexivity.
Defined.

(** X25.  While the bus cannot be reached the supervisor keeps trying: a
    worker that is disconnected makes exactly one connection attempt per
    turn, each failure is swallowed, and it is still disconnected after any
    number of turns. *)
Theorem supervisor_retries_while_bus_is_down (env : Env) (turns : nat) :
  (forall n, nats_fault env n <> None) ->
  forall w,
    nc_connected w = false ->
    exists w',
      Worker.maintain_service_connections turns env w = (Ret tt, w')
      /\ nc_connected w' = false
      /\ nats_calls w' = (nats_calls w + turns)%nat
      /\ clock w' = clock w + 5000 * Z.of_nat turns.
Proof.
  intros Hdown. induction turns as [|n IH]; intros w Hc.
  - exists w. simpl. repeat split; try assumption; lia.
  - cbn [Worker.maintain_service_connections]. unfold bind at 1.
    assert (Hturn :
              exists w1, Worker.maintain_turn env w = (Ret tt, w1)
                         /\ nc_connected w1 = false
                         /\ nats_calls w1 = S (nats_calls w)
                         /\ clock w1 = clock w + 5000).
    { py_unfold_all. simpl. repeat (progress (rewrite ?Hc; simpl)).
      destruct (nats_fault env (nats_calls w)) as [msg|] eqn:Hf;
        [|exfalso; exact (Hdown _ Hf)].
      simpl. repeat (progress (rewrite ?Hc; simpl)).
      eexists. split; [reflexivity|]. simpl. auto. }
    destruct Hturn as (w1 & -> & Hc1 & Hn1 & Hk1).
    destruct (IH w1 Hc1) as (w' & Heq & Hc' & Hn' & Hk').
    exists w'. split; [exact Heq|]. split; [exact Hc'|]. split; lia.
Qed.

Lemma supervisor_retries_while_bus_is_down_witness :
  exists w',
    Worker.maintain_service_connections 4 Fixture.bus_down
      (with_nc_connected false Fixture.fresh) = (Ret tt, w')
    /\ nc_connected w' = false
    /\ nats_calls w' = 4%nat
    /\ clock w' = 20000.
Proof.
  apply (supervisor_retries_while_bus_is_down Fixture.bus_down 4).
  - intros n. discriminate.
  - reflexivity.
Defined.



(** ** Circuit payloads *)

(** X27.  [deserialise_circuit_payload] fills in what the payload leaves
    out: without a "shots" key the shots are 1024, without a "metadata" key
    the metadata is the empty object; keys that are there are passed on. *)
Theorem deserialise_defaults (env : Env) (w : World) (payload_str q : string)
    (fields : list (string * json)) (c : QuantumCircuit) :
  json_loads env payload_str = Ret (JObj fields) ->
  CircuitUtils.dict_lookup "qasm" fields = Some (JStr q) ->
  qasm3_loads env q = Ret c ->
  exists p,
    CircuitUtils.deserialise_circuit_payload payload_str env w = (Ret p, w)
    /\ CircuitUtils.circuit p = c
    /\ CircuitUtils.pl_shots p =
         match CircuitUtils.dict_lookup "shots" fields with
         | Some v => v
         | None => JInt 1024
         end
    /\ CircuitUtils.metadata p =
         match CircuitUtils.dict_lookup "metadata" fields with
         | Some v => v
         | None => JObj []
         end.
Proof.
  intros Hj Hq Hl. py_unfold. simpl. rewrite Hj. simpl. rewrite Hq. simpl.
  rewrite Hl. simpl. eexists. repeat split.
Qed.

Lemma deserialise_defaults_witness :
  exists p,
    CircuitUtils.deserialise_circuit_payload
      (json_dumps Fixture.bare_payload_codec Fixture.bare_payload)
      Fixture.bare_payload_codec Fixture.fresh = (Ret p, Fixture.fresh)
    /\ CircuitUtils.circuit p = Fixture.bell
    /\ CircuitUtils.pl_shots p = JInt 1024
    /\ CircuitUtils.metadata p = JObj [].
Proof.
  apply (deserialise_defaults Fixture.bare_payload_codec Fixture.fresh
           (json_dumps Fixture.bare_payload_codec Fixture.bare_payload)
           Fixture.bell_qasm [("qasm", JStr Fixture.bell_qasm)] Fixture.bell);
    reflexivity.
Defined.


(** X28.  A payload without a "qasm" key is refused with a [KeyError] for
    that key, text that is not JSON with the decoder's own error, and a
    payload that is not an object with an exception as well. *)
Theorem deserialise_refuses_incomplete (env : Env) (w : World)
    (payload_str : string) :
  match json_loads env payload_str with
  | Raise e =>
      CircuitUtils.deserialise_circuit_payload payload_str env w = (Raise e, w)
  | Ret (JObj fields) =>
      CircuitUtils.dict_lookup "qasm" fields = None ->
      CircuitUtils.deserialise_circuit_payload payload_str env w =
        (Raise (Exception "KeyError: qasm"), w)
  | Ret _ =>
      exists e,
        CircuitUtils.deserialise_circuit_payload payload_str env w = (Raise e, w)
  end.
Proof.
  py_unfold. simpl.
  destruct (json_loads env payload_str) as [[| | | | |fields]|e]; simpl;
    eauto.
  intros ->. reflexivity.
Qed.

Lemma deserialise_refuses_incomplete_witness :
  CircuitUtils.deserialise_circuit_payload
    (json_dumps Fixture.odd_traffic Fixture.no_task_id)
    Fixture.odd_traffic Fixture.fresh =
    (Raise (Exception "KeyError: qasm"), Fixture.fresh)
  /\ CircuitUtils.deserialise_circuit_payload "not json"
       Fixture.odd_traffic Fixture.fresh =
     (Raise (Exception "JSONDecodeError"), Fixture.fresh).
Proof.
  split.
  - exact (deserialise_refuses_incomplete Fixture.odd_traffic Fixture.fresh
             (json_dumps Fixture.odd_traffic Fixture.no_task_id) eq_refl).
  - exact (deserialise_refuses_incomplete Fixture.odd_traffic Fixture.fresh
             "not json").
Defined.


(** X29.  When the circuit cannot be dumped to QASM,
    [serialise_circuit_payload] does not report that error: its [except]
    clause names [json.JSONEncodeError], which does not exist, so what the
    caller gets is an [AttributeError]. *)
Theorem serialise_masks_the_error (env : Env) (w : World)
    (c : QuantumCircuit) (shots : option Z) (e : exn) :
  qasm3_dumps env c = Raise e ->
  CircuitUtils.serialise_circuit_payload c shots env w =
    (Raise (Exception
              "AttributeError: module 'json' has no attribute 'JSONEncodeError'"),
     w).
Proof.
  intros Hd. py_unfold. simpl. rewrite Hd. reflexivity.
Qed.

Lemma serialise_masks_the_error_witness :
  CircuitUtils.serialise_circuit_payload Fixture.bell (Some 100)
    Fixture.dump_fails Fixture.fresh =
    (Raise (Exception
              "AttributeError: module 'json' has no attribute 'JSONEncodeError'"),
     Fixture.fresh).
Proof.
  apply (serialise_masks_the_error Fixture.dump_fails Fixture.fresh
           Fixture.bell (Some 100) (Exception "QASM3ExporterError")).
  reflexivity.
Defined.

(** ** Start-up *)

(** X30.  Neither service fails to start because a dependency is down:
    the start-up sequence of the API ([lifespan]) and of the worker
    ([connect_to_services]) never raises; afterwards the Redis client is
    open, and the bus is connected exactly when it was before or the one
    connection attempt went through. *)
Theorem startup_tolerates_unreachable_bus (env : Env) (w : World) :
  exists w',
    Api.lifespan_startup env w = (Ret tt, w')
    /\ Worker.connect_to_services env w = (Ret tt, w')
    /\ redis_handle w' = true
    /\ redis_db w' = redis_db w
    /\ nc_connected w' =
         nc_connected w || bool_decide (nats_fault env (nats_calls w) = None).
Proof.
  py_unfold_all. simpl.
  destruct (nc_connected w) eqn:Hc; simpl;
    repeat (progress (rewrite ?Hc; simpl)); repeat py_case;
    eexists; (split; [reflexivity|]); (split; [reflexivity|]); simpl; auto.
Qed.


(** ** The key space over a service run *)

Lemma exec_op_keeps_keys (env : Env) (op : Op) (w : World) :
  keyed_by_id (redis_db w) ->
  exists w', exec_op op env w = (Ret tt, w') /\ keyed_by_id (redis_db w').
Proof.
  intros Hinv. destruct op as [request | task_id]; simpl exec_op.
  - destruct (redis_fault env (redis_calls w)) as [msg|] eqn:Hf.
    + unfold try_except, bind.
      rewrite (submit_task_store_fails env w request msg Hf).
      eexists. split; [reflexivity|]. exact Hinv.
    + destruct (submit_task_store_ok env w request Hf)
        as (w' & bus & Heq & Hdb & _).
      unfold try_except, bind. rewrite Heq. simpl.
      exists w'. split; [reflexivity|].
      intros k t. rewrite Hdb, lookup_insert. case_decide.
      * intros [= <-]. subst k. reflexivity.
      * apply Hinv.
  - destruct (process_task_effects env w task_id)
      as (w' & ws & Heq & _ & Hdb & Hrw).
    exists w'. split; [exact Heq|].
    intros k t'. rewrite Hdb.
    destruct (decide (k = RedisClient.key_of task_id)) as [-> | Hne].
    + destruct (redis_db w !! RedisClient.key_of task_id) as [t|] eqn:Hk.
      * pose proof (Hinv _ _ Hk) as Hkey.
        destruct Hrw; simpl; rewrite ?lookup_insert_eq;
          intros Hl; try (rewrite Hk in Hl);
          injection Hl as <-; exact Hkey.
      * subst ws. simpl. rewrite Hk. discriminate.
    + rewrite (lookup_foldl_insert_ne _ _ _ _ Hne). apply Hinv.
Qed.

(** X2.  The key space stays keyed by id: over every run of the service
    (submissions and processor runs in any order and number, duplicates
    included, whatever fails), each document in Redis sits under the key
    "task:" followed by its own [id], provided that was so at the start. *)
Theorem serve_keeps_keys (env : Env) (ops : list Op) (w : World) :
  keyed_by_id (redis_db w) ->
  exists w', serve ops env w = (Ret tt, w') /\ keyed_by_id (redis_db w').
Proof.
  revert w. induction ops as [|op rest IH]; intros w Hinv.
  - exists w. split; [reflexivity | exact Hinv].
  - destruct (exec_op_keeps_keys env op w Hinv) as (w1 & Heq1 & Hinv1).
    destruct (IH w1 Hinv1) as (w2 & Heq2 & Hinv2).
    exists w2. split; [|exact Hinv2].
    simpl. unfold bind. rewrite Heq1. exact Heq2.
Qed.

Lemma serve_keeps_keys_witness :
  keyed_by_id (redis_db Fixture.fresh)
  /\ exists w',
       serve [Submit Fixture.bell_request; Process "task-0"; Process "task-0"]
         Fixture.flaky Fixture.fresh = (Ret tt, w')
       /\ keyed_by_id (redis_db w').
Proof.
  assert (H0 : keyed_by_id (redis_db Fixture.fresh)).
  { intros k t Hk. simpl in Hk. rewrite lookup_empty in Hk. discriminate Hk. }
  split; [exact H0|].
  apply (serve_keeps_keys Fixture.flaky
           [Submit Fixture.bell_request; Process "task-0"; Process "task-0"]
           Fixture.fresh H0).
Defined.
